(** * Lead-submission intake handler ([functions/api/lead.ts])

    A shallow embedding of the Cloudflare Pages Function [onRequestPost]
    (POST /api/lead) and of its helpers [resolveToEmail], [buildTextBody],
    [verifyTurnstileSafe], [sendWithResendSafe] and [escapeHtml], followed
    by the properties of the intake workflow.

    Conventions of the embedding.
    - A JavaScript string is a Rocq [string]; each [ascii] stands for one
      UTF-16 code unit in the range U+0000..U+00FF (Latin-1).  [trim],
      [toLowerCase] and [parseInt] are exact on that range.
    - A value of type [string | undefined] (or [| null]) is an
      [option string]; [truthy] is JavaScript truthiness on it.
    - The two outbound [fetch] calls are answered by a [Network], a
      function of the calls made so far and the present call; every call
      and its answer are recorded in a [Log]. *)

From Stdlib Require Import ZArith List Bool Lia.
From Stdlib Require Import Strings.Ascii Strings.String.
From Stdlib Require Import Numbers.DecimalString.
Import ListNotations.

Set Warnings "-register-all".

Open Scope string_scope.
Open Scope Z_scope.

(* ------------------------------------------------------------------ *)
(** ** JavaScript strings *)

Module JsString.

(** WhiteSpace and LineTerminator code units below U+0100:
    TAB, LF, VT, FF, CR, SPACE and NBSP. *)
Definition isWhiteSpace (c : ascii) : bool :=
  let n := nat_of_ascii c in
  ((9 <=? n) && (n <=? 13))%nat || (n =? 32)%nat || (n =? 160)%nat.

(** Lower-casing of one code unit: A-Z, and the Latin-1 capitals
    U+00C0..U+00DE without the multiplication sign U+00D7. *)
Definition lowerChar (c : ascii) : ascii :=
  let n := nat_of_ascii c in
  if ((65 <=? n) && (n <=? 90))%nat then ascii_of_nat (n + 32)
  else if ((192 <=? n) && (n <=? 222) && negb (n =? 215))%nat
       then ascii_of_nat (n + 32)
       else c.

Fixpoint toLowerCase (s : string) : string :=
  match s with
  | EmptyString => EmptyString
  | String c r => String (lowerChar c) (toLowerCase r)
  end.

Definition isEmpty (s : string) : bool :=
  match s with EmptyString => true | _ => false end.

Fixpoint trimStart (s : string) : string :=
  match s with
  | EmptyString => EmptyString
  | String c r => if isWhiteSpace c then trimStart r else s
  end.

Fixpoint trimEnd (s : string) : string :=
  match s with
  | EmptyString => EmptyString
  | String c r =>
      let r' := trimEnd r in
      if isWhiteSpace c && isEmpty r' then EmptyString else String c r'
  end.

Definition trim (s : string) : string := trimEnd (trimStart s).

Fixpoint allWhiteSpace (s : string) : bool :=
  match s with
  | EmptyString => true
  | String c r => isWhiteSpace c && allWhiteSpace r
  end.

Fixpoint startsWith (p s : string) : bool :=
  match p, s with
  | EmptyString, _ => true
  | String a p', String b s' => Ascii.eqb a b && startsWith p' s'
  | String _ _, EmptyString => false
  end.

(** [s.includes(needle)] *)
Fixpoint includes (needle s : string) : bool :=
  startsWith needle s ||
  match s with
  | EmptyString => false
  | String _ r => includes needle r
  end.

(** [s.replaceAll(c, rep)] for a one-character pattern. *)
Fixpoint replaceAll (c : ascii) (rep : string) (s : string) : string :=
  match s with
  | EmptyString => EmptyString
  | String a r =>
      if Ascii.eqb a c then rep ++ replaceAll c rep r
      else String a (replaceAll c rep r)
  end.

(** [xs.join(sep)] *)
Fixpoint join (sep : string) (xs : list string) : string :=
  match xs with
  | [] => EmptyString
  | [x] => x
  | x :: rest => x ++ sep ++ join sep rest
  end.

Definition dquote : string := String (ascii_of_nat 34) EmptyString.
Definition newline : string := String (ascii_of_nat 10) EmptyString.

(** Decimal rendering of a small index, as [`${i + 1}`] does. *)
Definition ofNat (n : nat) : string :=
  NilEmpty.string_of_uint (Nat.to_uint n).

(** *** [parseInt(s)] with no radix argument (ECMA-262, 19.2.5) *)

Definition digitValue (c : ascii) : option Z :=
  let n := Z.of_nat (nat_of_ascii c) in
  if (48 <=? n) && (n <=? 57) then Some (n - 48)
  else if (97 <=? n) && (n <=? 122) then Some (n - 87)
  else if (65 <=? n) && (n <=? 90) then Some (n - 55)
  else None.

Definition radixDigit (radix : Z) (c : ascii) : option Z :=
  match digitValue c with
  | Some d => if d <? radix then Some d else None
  | None => None
  end.

(** Value of the longest prefix of radix digits, [acc] being the value
    of the digits already read. *)
Fixpoint digitsValue (radix : Z) (s : string) (acc : Z) : Z :=
  match s with
  | EmptyString => acc
  | String c r =>
      match radixDigit radix c with
      | Some d => digitsValue radix r (acc * radix + d)
      | None => acc
      end
  end.

Definition stripSign (s : string) : Z * string :=
  match s with
  | String "-" r => (-1, r)
  | String "+" r => (1, r)
  | _ => (1, s)
  end.

Definition stripHexPrefix (s : string) : Z * string :=
  match s with
  | String "0" (String "x" r) => (16, r)
  | String "0" (String "X" r) => (16, r)
  | _ => (10, s)
  end.

(** [None] is NaN.  The mathematical integer is kept exact; the
    rounding to a Number is monotone and fixes 4, so [parseInt(s) >= 4]
    is decided alike on both. *)
Definition parseInt (s : string) : option Z :=
  let '(sign, s1) := stripSign (trimStart s) in
  let '(radix, s2) := stripHexPrefix s1 in
  match s2 with
  | EmptyString => None
  | String c _ =>
      match radixDigit radix c with
      | Some _ => Some (sign * digitsValue radix s2 0)
      | None => None
      end
  end.

End JsString.

Import JsString.

(* ------------------------------------------------------------------ *)
(** ** Values, configuration, requests and responses *)

(** JSON values as the handler sees them after [JSON.parse] and before
    [JSON.stringify].  Numbers are the integer-valued ones; an object is
    its list of properties. *)
Inductive JsValue : Type :=
| JNull
| JBool (b : bool)
| JNum (n : Z)
| JStr (s : string)
| JArr (items : list JsValue)
| JObj (props : list (string * JsValue)).

Module Js.

(** Truthiness of a [string | undefined] value. *)
Definition truthy (o : option string) : bool :=
  match o with
  | Some s => negb (isEmpty s)
  | None => false
  end.

(** [a || b] on [string | undefined] values. *)
Definition or (a b : option string) : option string :=
  if truthy a then a else b.

(** [a || "literal"] *)
Definition orStr (a : option string) (b : string) : string :=
  match a with
  | Some s => if isEmpty s then b else s
  | None => b
  end.

(** [s || "literal"] on a string *)
Definition strOr (s b : string) : string := if isEmpty s then b else s.

(** [s || undefined] *)
Definition orUndefined (s : string) : option string :=
  if isEmpty s then None else Some s.

Definition truthyValue (v : JsValue) : bool :=
  match v with
  | JNull => false
  | JBool b => b
  | JNum n => negb (n =? 0)
  | JStr s => negb (isEmpty s)
  | JArr _ | JObj _ => true
  end.

Fixpoint lookup (props : list (string * JsValue)) (k : string)
  : option JsValue :=
  match props with
  | [] => None
  | (k', v) :: rest => if String.eqb k' k then Some v else lookup rest k
  end.

(** [v.k]: [None] is [undefined] (a missing property, or a property
    read on a primitive or an array). *)
Definition prop (v : JsValue) (k : string) : option JsValue :=
  match v with
  | JObj props => lookup props k
  | _ => None
  end.

(** [x === true] *)
Definition isTrue (o : option JsValue) : bool :=
  match o with
  | Some (JBool true) => true
  | _ => false
  end.

Definition ofOption (o : option string) : JsValue :=
  match o with Some s => JStr s | None => JNull end.

End Js.

(** [context.env]: the variables the handler reads. *)
Record Env : Type := mkEnv {
  TURNSTILE_SECRET_KEY : option string;
  RESEND_API_KEY : option string;
  RESEND_FROM_EMAIL : option string;
  RESEND_FROM_NAME : option string;
  TO_EARLY_OFFER : option string;
  TO_BOOK_FITTING : option string;
  TO_EVENT_FLORAL : option string;
  TO_REVIEWS : option string;
  TO_FEEDBACK : option string;
  TO_DEFAULT : option string
}.

(** What [headers.get(name)] answers for the four headers read. *)
Record Headers : Type := mkHeaders {
  hAccept : option string;
  hCfConnectingIp : option string;
  hUserAgent : option string;
  hReferer : option string
}.

(** A decoded form body: its entry list, in body order. *)
Definition FormData : Type := list (string * string).

(** [form.get(name)]: the value of the first entry of that name,
    [None] (null) when there is none. *)
Fixpoint FormData_get (form : FormData) (name : string) : option string :=
  match form with
  | [] => None
  | (k, v) :: rest =>
      if String.eqb k name then Some v else FormData_get rest name
  end.

(** [formData] is what [await req.formData()] gives: [None] when the
    body cannot be decoded and the promise rejects. *)
Record Request : Type := mkRequest {
  headers : Headers;
  formData : option FormData
}.

(** The handler takes [context: any] and guards its first read with
    [context?.request?.headers]; a missing part is [None]. *)
Record Context : Type := mkContext {
  request : option Request;
  env : option Env
}.

Inductive Body : Type :=
| BodyNull
| BodyJson (payload : JsValue)      (* JSON.stringify(payload) *)
| BodyHtml (text : string).

Record Response : Type := mkResponse {
  status : Z;
  respHeaders : list (string * string);
  body : Body
}.

(* ------------------------------------------------------------------ *)
(** ** Outbound calls *)

Record EmailBody : Type := mkEmailBody {
  from : string;
  to : list string;
  subject : string;
  text : string;
  emailHeaders : option (list (string * string))
}.

Inductive OutCall : Type :=
| CallVerify (secret response : string) (remoteip : option string)
| CallSend (apiKey : string) (email : EmailBody).

(** The provider's answer: [respText] is [await resp.text()] ([None] when
    reading fails), [respJson] the parsed body ([None] when it is not
    JSON). *)
Record HttpResponse : Type := mkHttpResponse {
  respStatus : Z;
  respText : option string;
  respJson : option JsValue
}.

Inductive FetchResult : Type :=
| FetchThrows (message : string)
| FetchResponse (resp : HttpResponse).

Definition Log : Type := list (OutCall * FetchResult).
Definition Network : Type := Log -> OutCall -> FetchResult.

(** Computations that may call out: a reader of the network and a writer
    of the log. *)
Definition IO (A : Type) : Type := Network -> Log -> A * Log.

Definition ret {A} (a : A) : IO A := fun _ log => (a, log).

Definition bind {A B} (m : IO A) (k : A -> IO B) : IO B :=
  fun net log => let '(a, log') := m net log in k a net log'.

Definition fetch (c : OutCall) : IO FetchResult :=
  fun net log => let r := net log c in (r, (log ++ [(c, r)])%list).

Notation "x <- m ;; k" := (bind m (fun x => k))
  (at level 61, m at next level, right associativity).

Definition run {A} (m : IO A) (net : Network) : A * Log := m net [].

(** [resp.ok] *)
Definition respOk (r : HttpResponse) : bool :=
  (200 <=? respStatus r) && (respStatus r <=? 299).

Definition isSend (c : OutCall) : bool :=
  match c with CallSend _ _ => true | CallVerify _ _ _ => false end.

Definition isVerify (c : OutCall) : bool :=
  match c with CallVerify _ _ _ => true | CallSend _ _ => false end.

(* ------------------------------------------------------------------ *)
(** ** Helpers of [lead.ts] *)

(** [{ ok: boolean; details?: any }] *)
Record SafeResult : Type := mkSafe {
  ok : bool;
  details : option JsValue
}.

Definition obj (props : list (string * JsValue)) : JsValue := JObj props.

(** A property whose value is [undefined] is dropped by
    [JSON.stringify]. *)
Definition optProp (k : string) (v : option JsValue)
  : list (string * JsValue) :=
  match v with Some x => [(k, x)] | None => [] end.

(** [String(undefined)], what a template or a form encoder makes of a
    missing value cast with [as string]. *)
Definition asString (o : option string) : string :=
  match o with Some s => s | None => "undefined" end.

(** lead.ts 474-481 *)
Definition escapeHtml (str : string) : string :=
  replaceAll "'" "&#039;"
    (replaceAll (ascii_of_nat 34) "&quot;"
       (replaceAll ">" "&gt;"
          (replaceAll "<" "&lt;"
             (replaceAll "&" "&amp;" str)))).

(** lead.ts 8-12 *)
Definition json (st : Z) (payload : JsValue) : Response :=
  mkResponse st [("Content-Type", "application/json; charset=utf-8")]
             (BodyJson payload).

Definition htmlPage (message : string) : string :=
  let q := dquote in
  "<!doctype html><html><head><meta charset=" ++ q ++ "utf-8" ++ q
  ++ "/><meta name=" ++ q ++ "viewport" ++ q ++ " content=" ++ q
  ++ "width=device-width,initial-scale=1" ++ q ++ "/></head><body style="
  ++ q ++ "font-family:system-ui; padding:24px;" ++ q ++ ">" ++ newline
  ++ "        <h2>" ++ escapeHtml message ++ "</h2>" ++ newline
  ++ "        <p><a href=" ++ q ++ "/" ++ q ++ " style=" ++ q
  ++ "color:#111;" ++ q ++ ">Return to site</a></p>" ++ newline
  ++ "      </body></html>".

(** lead.ts 14-24 *)
Definition html (st : Z) (message : string) : Response :=
  mkResponse st [("Content-Type", "text/html; charset=utf-8")]
             (BodyHtml (htmlPage message)).

(** lead.ts 26-29: [context?.request?.headers?.get?.("Accept") || ""] *)
Definition acceptOf (context : option Context) : string :=
  match context with
  | Some ctx =>
      match request ctx with
      | Some req => Js.orStr (hAccept (headers req)) ""
      | None => ""
      end
  | None => ""
  end.

Definition wantsJson (context : option Context) : bool :=
  includes "application/json" (acceptOf context).

(** lead.ts 31-32 *)
Definition respond (wj : bool) (st : Z) (payload : JsValue)
    (fallbackMsg : string) : Response :=
  if wj then json st payload else html st fallbackMsg.

(** lead.ts 337-344.  [None] is [null]. *)
Definition resolveToEmail (formType : string) (e : Env) : option string :=
  let t := toLowerCase (Js.strOr formType "") in
  if String.eqb t "early_offer" then
    Js.or (Js.or (TO_EARLY_OFFER e) (TO_DEFAULT e)) None
  else if String.eqb t "fitting" then
    Js.or (Js.or (TO_BOOK_FITTING e) (TO_DEFAULT e)) None
  else if String.eqb t "events" then
    Js.or (Js.or (TO_EVENT_FLORAL e) (TO_DEFAULT e)) None
  else if String.eqb t "reviews" then
    Js.or (Js.or (Js.or (TO_REVIEWS e) (TO_FEEDBACK e)) (TO_DEFAULT e)) None
  else Js.or (TO_DEFAULT e) None.

Definition nonEmpty (s : string) : bool := negb (isEmpty s).

(** lead.ts 346-387 *)
Definition buildTextBody (formType email firstName lastName phone
    message : string) (ip : option string) (userAgent referer : string)
    (rating source name : option string) : string :=
  let lines :=
    [ "Form Type: " ++ formType;
      "Email: " ++ email;
      "Name: " ++ Js.strOr (join " " (filter nonEmpty [firstName; lastName]))
                           "(not provided)";
      "Phone: " ++ Js.strOr phone "(not provided)" ] in
  let lines :=
    if String.eqb formType "reviews" && Js.truthy rating then
      List.app lines
        (("Rating: " ++ asString rating ++ "/5")
           :: (if Js.truthy source
               then ["Review Source: " ++ asString source] else []))
    else lines in
  let lines :=
    List.app lines
     [ "";
       "Message:";
       Js.strOr message "(none)";
       "";
       "Meta:";
       "IP: " ++ Js.orStr ip "(unknown)";
       "User-Agent: " ++ Js.strOr userAgent "(unknown)";
       "Referer: " ++ Js.strOr referer "(unknown)" ] in
  join newline lines.

(** lead.ts 406-419: what [verifyTurnstileSafe] makes of the provider's
    answer.  [FetchThrows m] carries the text [String(e?.message || e)]
    of the exception caught. *)
Definition verifyOutcome (r : FetchResult) : SafeResult :=
  match r with
  | FetchThrows m => mkSafe false (Some (JStr m))
  | FetchResponse resp =>
      let data := match respJson resp with Some v => v | None => JNull end in
      if negb (respOk resp) then
        mkSafe false
          (Some (obj [("status", JNum (respStatus resp)); ("body", data)]))
      else if negb (Js.truthyValue data)
              || negb (Js.isTrue (Js.prop data "success")) then
        mkSafe false (Some data)
      else mkSafe true None
  end.

(** lead.ts 389-420 *)
Definition verifyTurnstileSafe (token secretKey : string)
    (ip : option string) : IO SafeResult :=
  r <- fetch (CallVerify secretKey token
                (if Js.truthy ip then ip else None)) ;;
  ret (verifyOutcome r).

(** lead.ts 458-471: what [sendWithResendSafe] makes of the provider's
    answer. *)
Definition sendOutcome (r : FetchResult) : SafeResult :=
  match r with
  | FetchThrows m => mkSafe false (Some (JStr m))
  | FetchResponse resp =>
      let raw := match respText resp with Some s => s | None => "" end in
      let parsed :=
        if isEmpty raw then JNull
        else match respJson resp with Some v => v | None => JNull end in
      if negb (respOk resp) then
        mkSafe false
          (Some (obj [("status", JNum (respStatus resp));
                      ("body", if Js.truthyValue parsed
                               then parsed else JStr raw)]))
      else mkSafe true (Some parsed)
  end.

(** lead.ts 432-447: the message handed to the provider. *)
Definition emailCall (apiKey fromEmail : string)
    (fromName : option string) (toAddr subj txt : string)
    (isTransactional : bool) : OutCall :=
  let fromField :=
    if Js.truthy fromName
    then asString fromName ++ " <" ++ fromEmail ++ ">"
    else fromEmail in
  let hdrs :=
    if isTransactional then
      Some [("List-Unsubscribe",
             "<mailto:unsubscribe@verosboutiqueky.com?subject=unsubscribe>");
            ("X-Priority", "3")]
    else None in
  CallSend apiKey (mkEmailBody fromField [toAddr] subj txt hdrs).

(** lead.ts 422-472 *)
Definition sendWithResendSafe (apiKey fromEmail : string)
    (fromName : option string) (toAddr subj txt : string)
    (isTransactional : bool) : IO SafeResult :=
  r <- fetch (emailCall apiKey fromEmail fromName toAddr subj txt
                isTransactional) ;;
  ret (sendOutcome r).

(* ------------------------------------------------------------------ *)
(** ** The handler [onRequestPost] *)

(** lead.ts 58-69: the fields read from the form, each
    [String(form.get(k) || "").trim()]; [formType] and [email] are
    lower-cased as well. *)
Record Fields : Type := mkFields {
  formType : string;
  email : string;
  firstName : string;
  lastName : string;
  fullName : string;
  name : string;
  phone : string;
  message : string;
  turnstileToken : string;
  rating : string;
  source : string
}.

Definition field (form : FormData) (k : string) : string :=
  trim (Js.orStr (FormData_get form k) "").

Definition extractFields (form : FormData) : Fields :=
  {| formType := toLowerCase (field form "formType");
     email := toLowerCase (field form "email");
     firstName := field form "firstName";
     lastName := field form "lastName";
     fullName := field form "fullName";
     name := field form "name";
     phone := field form "phone";
     message := field form "message";
     turnstileToken := field form "cf-turnstile-response";
     rating := field form "rating";
     source := field form "source" |}.

(** lead.ts 39 *)
Definition required : list string :=
  ["TURNSTILE_SECRET_KEY"; "RESEND_API_KEY"; "RESEND_FROM_EMAIL"].

(** [env[k]] for the names in [required]. *)
Definition envGet (e : Env) (k : string) : option string :=
  if String.eqb k "TURNSTILE_SECRET_KEY" then TURNSTILE_SECRET_KEY e
  else if String.eqb k "RESEND_API_KEY" then RESEND_API_KEY e
  else if String.eqb k "RESEND_FROM_EMAIL" then RESEND_FROM_EMAIL e
  else None.

(** lead.ts 76 *)
Definition isHighRating (f : Fields) : bool :=
  String.eqb (formType f) "reviews"
  && nonEmpty (rating f)
  && match parseInt (rating f) with
     | Some n => 4 <=? n
     | None => false
     end.

(** lead.ts 71-88: [Some r] when the handler returns [r] here. *)
Definition validate (wj : bool) (f : Fields) : option Response :=
  if isEmpty (formType f) then
    Some (respond wj 400
            (obj [("ok", JBool false); ("error", JStr "missing_formtype")])
            "Missing form type.")
  else if negb (isHighRating f) && isEmpty (email f) then
    Some (respond wj 400
            (obj [("ok", JBool false); ("error", JStr "missing_email")])
            "Please enter an email.")
  else if negb (isHighRating f) && isEmpty (turnstileToken f) then
    Some (respond wj 400
            (obj [("ok", JBool false); ("error", JStr "missing_turnstile")])
            "Captcha missing. Please refresh and try again.")
  else None.

(** lead.ts 93-108 *)
Definition challenge (wj : bool) (e : Env) (ip : option string)
    (f : Fields) : IO (option Response) :=
  if nonEmpty (turnstileToken f) then
    verify <- verifyTurnstileSafe (turnstileToken f)
                (asString (TURNSTILE_SECRET_KEY e)) ip ;;
    if negb (ok verify) then
      ret (Some (respond wj 400
                   (obj ([("ok", JBool false);
                          ("error", JStr "turnstile_failed")]
                         ++ optProp "details" (details verify))%list)
                   "Captcha failed. Please try again."))
    else ret None
  else ret None.

Definition lines (xs : list string) : string := join newline xs.

(** lead.ts 157-179.  Characters of the fixed text beyond Latin-1 stand
    as their UTF-8 bytes; nothing inspects them. *)
Definition earlyOfferReplyText (f : Fields) : string :=
  lines
    [ "Hi" ++ (if nonEmpty (firstName f) then " " ++ firstName f else "")
        ++ "!";
      "";
      "Thanks for joining our Early Offer list — here's your reward for Grand Opening:";
      "";
      "✅ Spend $50+ → get $5 back (Use code VERO5)";
      "✅ Spend $100+ → get $10 back (Use code VERO10)";
      "";
      "How to redeem:";
      "1) Use code VERO5 or VERO10 at checkout";
      "2) Offer applies to qualifying purchase totals (before tax)";
      "3) One offer per customer during the promotion window";
      "";
      "We can't wait to see you,";
      "VERO'S BOUTIQUE LLC";
      "100 Saint George St. Richmond, KY 40475";
      "Navigation: https://maps.google.com/?q=100+Saint+George+St+Richmond+KY+40475";
      "";
      "---";
      "";
      "Fine Print: This offer is valid based on your consent to receive promotional emails from Vero's Boutique. Offer expires 04/05/2026. Cannot be combined with other offers. See terms of service for details.";
      "";
      "If you don't want early offer emails, reply 'unsubscribe'." ].

(** lead.ts 201-215: one preferred slot, read unmodified from the form. *)
Definition preferredSlot (form : FormData) (dateKey timeKey : string)
  : list string :=
  if Js.truthy (FormData_get form dateKey) then
    [ asString (FormData_get form dateKey) ++ " at "
        ++ Js.orStr (FormData_get form timeKey) "(no time)" ]
  else [].

Definition preferredDates (form : FormData) : list string :=
  (preferredSlot form "preferredDate1" "preferredTime1"
   ++ preferredSlot form "preferredDate2" "preferredTime2"
   ++ preferredSlot form "preferredDate3" "preferredTime3")%list.

(** [xs.map((d, i) => `  Option ${i + 1}: ${d}`)], from index [i]. *)
Fixpoint options (i : nat) (xs : list string) : list string :=
  match xs with
  | [] => []
  | d :: rest =>
      ("  Option " ++ ofNat (i + 1) ++ ": " ++ d) :: options (S i) rest
  end.

(** lead.ts 217-247 *)
Definition fittingReplyText (f : Fields) (form : FormData) : string :=
  lines
    [ "Hi " ++ Js.strOr (fullName f) "there" ++ "!";
      "";
      "We received your appointment request. Thank you for choosing Vero's Boutique for your dress fitting!";
      "";
      "This is a request to schedule an appointment — we'll confirm your preferred time within 24 hours.";
      "";
      "--- YOUR REQUEST ---";
      "";
      "Full Name: " ++ Js.strOr (fullName f) "(not provided)";
      "Email: " ++ email f;
      "Phone: " ++ Js.strOr (phone f) "(not provided)";
      "";
      "Dress Type: " ++ Js.orStr (FormData_get form "eventType")
                                 "(not specified)";
      "";
      "Preferred Dates & Times:";
      (match preferredDates form with
       | [] => "  (not provided)"
       | ds => join newline (options 0 ds)
       end);
      "";
      "Additional Notes:";
      Js.strOr (message f) "(none)";
      "";
      "--- NEXT STEPS ---";
      "";
      "We'll reach out to confirm your appointment within 24 hours.";
      "";
      "If you need to reschedule or have urgent questions, please reply to this email or call us directly.";
      "";
      "We look forward to meeting you!";
      "";
      "VERO'S BOUTIQUE LLC";
      "100 Saint George St. Richmond, KY 40475";
      "Navigation: https://maps.google.com/?q=100+Saint+George+St+Richmond+KY+40475" ].

(** lead.ts 267-296 *)
Definition eventsReplyText (f : Fields) : string :=
  lines
    [ "Hi " ++ Js.strOr (name f) "there" ++ "!";
      "";
      "We received your event planning and floral design consultation request. Thank you for thinking of Vero's Boutique!";
      "";
      "This is a consultation inquiry — we'll reach out to discuss your vision and availability within 24 hours.";
      "";
      "--- YOUR REQUEST ---";
      "";
      "Full Name: " ++ Js.strOr (name f) "(not provided)";
      "Email: " ++ email f;
      "Phone: " ++ Js.strOr (phone f) "(not provided)";
      "";
      "Consultation Details:";
      Js.strOr (message f) "(none)";
      "";
      "--- NEXT STEPS ---";
      "";
      "Our events & florals team will contact you within 24 hours to discuss:";
      "• Your event vision and style preferences";
      "• Available dates and timeline";
      "• Floral arrangements and décor options";
      "• Pricing and packages";
      "";
      "If you have urgent questions or need to reach us faster, please reply to this email or call us directly.";
      "";
      "We're excited to help bring your vision to life!";
      "";
      "VERO'S BOUTIQUE LLC";
      "100 Saint George St. Richmond, KY 40475";
      "Navigation: https://maps.google.com/?q=100+Saint+George+St+Richmond+KY+40475" ].

(** The courtesy message of lead.ts 181-189, 249-257 and 298-306; the
    answer is read and dropped ("Silent fail"). *)
Definition autoReply (e : Env) (f : Fields) (subj txt : string) : IO unit :=
  reply <- sendWithResendSafe (asString (RESEND_API_KEY e))
             (asString (RESEND_FROM_EMAIL e)) (RESEND_FROM_NAME e)
             (email f) subj txt true ;;
  if negb (ok reply) then ret tt else ret tt.

(** lead.ts 155-311 *)
Definition autoReplies (e : Env) (f : Fields) (form : FormData) : IO unit :=
  _ <- (if String.eqb (formType f) "early_offer" then
          autoReply e f "Your Exclusive Early Offer - Vero's Boutique"
                    (earlyOfferReplyText f)
        else ret tt) ;;
  _ <- (if String.eqb (formType f) "fitting" then
          autoReply e f "Appointment Request Received — VERO'S BOUTIQUE LLC"
                    (fittingReplyText f form)
        else ret tt) ;;
  if String.eqb (formType f) "events" then
    autoReply e f "Consultation Request Received — VERO'S BOUTIQUE LLC"
              (eventsReplyText f)
  else ret tt.

(** lead.ts 121 *)
Definition subjectOf (f : Fields) : string :=
  if String.eqb (formType f) "reviews" then "Review message"
  else "[" ++ formType f ++ "] New Lead from " ++ email f.

(** lead.ts 313-319 *)
Definition successResponse : Response :=
  mkResponse 303 [("Location", "/?submitted=success")] BodyNull.

(** lead.ts 110-319 *)
Definition routeAndSend (wj : bool) (e : Env) (h : Headers)
    (ip : option string) (f : Fields) (form : FormData) : IO Response :=
  let toAddr := resolveToEmail (formType f) e in
  if negb (Js.truthy toAddr) then
    ret (respond wj 400
           (obj [("ok", JBool false); ("error", JStr "unknown_formtype");
                 ("formType", JStr (formType f))])
           "Unknown form type.")
  else
    let txt :=
      buildTextBody (formType f) (email f) (firstName f) (lastName f)
        (phone f) (message f) ip
        (Js.orStr (hUserAgent h) "") (Js.orStr (hReferer h) "")
        (Js.orUndefined (rating f)) (Js.orUndefined (source f))
        (Js.orUndefined (name f)) in
    send <- sendWithResendSafe (asString (RESEND_API_KEY e))
              (asString (RESEND_FROM_EMAIL e)) (RESEND_FROM_NAME e)
              (asString toAddr) (subjectOf f) txt false ;;
    if negb (ok send) then
      ret (respond wj 502
             (obj ([("ok", JBool false); ("error", JStr "resend_failed")]
                   ++ optProp "details" (details send))%list)
             "Message failed to send. Please try again.")
    else
      _ <- autoReplies e f form ;;
      ret successResponse.

(** lead.ts 58-319, once the form is decoded. *)
Definition handleForm (wj : bool) (e : Env) (h : Headers)
    (form : FormData) : IO Response :=
  let f := extractFields form in
  match validate wj f with
  | Some r => ret r
  | None =>
      let ip := Js.or (hCfConnectingIp h) None in
      rejected <- challenge wj e ip f ;;
      match rejected with
      | Some r => ret r
      | None => routeAndSend wj e h ip f form
      end
  end.

(** The message of the TypeError raised by reading property [p] of
    [undefined]. *)
Definition typeErrorMessage (p : string) : string :=
  "Cannot read properties of undefined (reading '" ++ p ++ "')".

(** lead.ts 320-326: the outer [catch]. *)
Definition serverError (errMessage : string) : Response :=
  mkResponse 500 [("Content-Type", "application/json; charset=utf-8")]
    (BodyJson (obj [("ok", JBool false); ("error", JStr "server_error");
                    ("details", JStr errMessage)])).

Definition invalidFormData (wj : bool) : Response :=
  respond wj 400
    (obj [("ok", JBool false); ("error", JStr "invalid_form_data")])
    "Invalid form submission.".

(** lead.ts 6-327 *)
Definition onRequestPost (context : option Context) : IO Response :=
  let wj := wantsJson context in
  match context with
  | None => ret (serverError (typeErrorMessage "request"))
  | Some ctx =>
      match env ctx with
      | None => ret (serverError (typeErrorMessage "TURNSTILE_SECRET_KEY"))
      | Some e =>
          let missing :=
            filter (fun k => negb (Js.truthy (envGet e k))) required in
          if (0 <? Z.of_nat (List.length missing)) then
            ret (respond wj 500
                   (obj [("ok", JBool false); ("error", JStr "missing_env");
                         ("missing", JArr (map JStr missing))])
                   "Server misconfigured (missing environment variables).")
          else
            match request ctx with
            | None => ret (invalidFormData wj)
            | Some req =>
                match formData req with
                | None => ret (invalidFormData wj)
                | Some form => handleForm wj e (headers req) form
                end
            end
      end
  end.

(** The response and the outbound calls of one request. *)
Definition response (context : option Context) (net : Network) : Response :=
  fst (run (onRequestPost context) net).

Definition calls (context : option Context) (net : Network) : list OutCall :=
  map fst (snd (run (onRequestPost context) net)).

(* ------------------------------------------------------------------ *)
(** ** The Astro route [POST] (Turnstile validation endpoint)

    The second intake endpoint of the repository: it checks the
    challenge token, collects the submitted fields into a [lead] object
    and logs it.  The lead is a plain object; a read of [lead[k]] falls
    back to [Object.prototype] when [lead] has no own property [k]. *)

Module AstroLead.

Record ARequest : Type := mkARequest {
  reqMethod : string;
  reqForm : option FormData     (* await request.formData() *)
}.

(** [string | string[]] *)
Inductive LeadValue : Type :=
| LStr (s : string)
| LArr (items : list string).

(** The own properties of [lead]. *)
Definition Lead : Type := list (string * LeadValue).

Fixpoint own (lead : Lead) (k : string) : option LeadValue :=
  match lead with
  | [] => None
  | (k', v) :: rest => if String.eqb k' k then Some v else own rest k
  end.

(** [lead[k] = v] for an own property: replaced in place, or added. *)
Fixpoint setOwn (lead : Lead) (k : string) (v : LeadValue) : Lead :=
  match lead with
  | [] => [(k, v)]
  | (k', v') :: rest =>
      if String.eqb k' k then (k, v) :: rest
      else (k', v') :: setOwn rest k v
  end.

(** The property names of [Object.prototype]. *)
Definition objectPrototypeKeys : list string :=
  [ "constructor"; "__defineGetter__"; "__defineSetter__";
    "hasOwnProperty"; "__lookupGetter__"; "__lookupSetter__";
    "isPrototypeOf"; "propertyIsEnumerable"; "toString"; "valueOf";
    "__proto__"; "toLocaleString" ].

Definition inherited (k : string) : bool :=
  existsb (String.eqb k) objectPrototypeKeys.

(** What [lead[k]] reads. *)
Inductive Read : Type :=
| Undefined
| Own (v : LeadValue)
| Inherited.     (* a function, or the prototype object itself *)

Definition read (lead : Lead) (k : string) : Read :=
  match own lead k with
  | Some v => Own v
  | None => if inherited k then Inherited else Undefined
  end.

(** [!lead[k]] *)
Definition falsy (r : Read) : bool :=
  match r with
  | Undefined => true
  | Own (LStr s) => isEmpty s
  | Own (LArr _) => false
  | Inherited => false
  end.

(** [s.endsWith(suffix)]: [s] is [suffix], or its tail ends with it. *)
Fixpoint endsWith (suffix s : string) : bool :=
  String.eqb s suffix ||
  match s with
  | EmptyString => false
  | String _ r => endsWith suffix r
  end.

(** [s.slice(0, -n)] *)
Definition sliceEnd (s : string) (n : nat) : string :=
  substring 0 (String.length s - n) s.

(** part_000 76-85: one value of a multi-value field [name[]]. *)
Definition pushValue (lead : Lead) (fieldName value : string) : Lead :=
  let lead1 :=
    if falsy (read lead fieldName) then setOwn lead fieldName (LArr [])
    else lead in
  match read lead1 fieldName with
  | Own (LArr items) => setOwn lead1 fieldName (LArr (items ++ [value])%list)
  | _ => lead1
  end.

(** part_000 73-88: the body of the loop.  Assigning a string to
    [lead["__proto__"]] runs the prototype setter, which ignores it. *)
Definition addEntry (lead : Lead) (entry : string * string) : Lead :=
  let '(key, value) := entry in
  if String.eqb key "cf-turnstile-response" || String.eqb key "formType"
  then lead
  else if endsWith "[]" key then pushValue lead (sliceEnd key 2) value
  else if String.eqb key "__proto__" then lead
  else setOwn lead key (LStr value).

(** part_000 66-88; [now] is [new Date().toISOString()]. *)
Definition buildLead (formType : option string) (now : string)
    (entries : FormData) : Lead :=
  fold_left addEntry entries
    [ ("formType", LStr (Js.orStr formType "unknown"));
      ("timestamp", LStr now) ].

(** The verification call: a JSON body [{secret, response}]. *)
Inductive ACall : Type :=
| VerifyJson (secret : option string) (response : string).

Definition ANetwork : Type := ACall -> FetchResult.

(** The response, the outbound calls and what [console.log] received. *)
Record AResult : Type := mkAResult {
  aResponse : Response;
  aCalls : list ACall;
  aLogged : option Lead
}.

Definition jsonResponse (st : Z) (payload : JsValue) : Response :=
  mkResponse st [("Content-Type", "application/json")] (BodyJson payload).

(** part_000 105-117: the [catch]. *)
Definition internalError : Response :=
  jsonResponse 500
    (JObj [("error", JStr "Internal server error"); ("success", JBool false)]).

Definition tokenMissing : Response :=
  jsonResponse 400
    (JObj [("error", JStr "Turnstile validation token missing");
           ("success", JBool false)]).

Definition validationFailed (codes : option JsValue) : Response :=
  jsonResponse 400
    (JObj ([("error", JStr "Turnstile validation failed")]
           ++ optProp "codes" codes
           ++ [("success", JBool false)])%list).

Definition submitted (formType : option string) : Response :=
  jsonResponse 200
    (JObj [("success", JBool true);
           ("message", JStr "Lead submitted successfully");
           ("formType", Js.ofOption formType)]).

(** [!v] for a property read of a JSON value. *)
Definition falsyProp (o : option JsValue) : bool :=
  match o with
  | Some v => negb (Js.truthyValue v)
  | None => true
  end.

(** part_000 13-118.  [secret] is [import.meta.env.TURNSTILE_SECRET_KEY]. *)
Definition POST (secret : option string) (now : string)
    (req : ARequest) (net : ANetwork) : AResult :=
  if negb (String.eqb (reqMethod req) "POST") then
    mkAResult
      (jsonResponse 405 (JObj [("error", JStr "Method not allowed")]))
      [] None
  else
    match reqForm req with
    | None => mkAResult internalError [] None
    | Some formData =>
        let turnstileToken := FormData_get formData "cf-turnstile-response" in
        let formType := FormData_get formData "formType" in
        if negb (Js.truthy turnstileToken) then
          mkAResult tokenMissing [] None
        else
          let c := VerifyJson secret (asString turnstileToken) in
          match net c with
          | FetchThrows _ => mkAResult internalError [c] None
          | FetchResponse resp =>
              match respJson resp with
              | None => mkAResult internalError [c] None
              | Some JNull => mkAResult internalError [c] None
              | Some verifyData =>
                  if falsyProp (Js.prop verifyData "success") then
                    mkAResult
                      (validationFailed (Js.prop verifyData "error_codes"))
                      [c] None
                  else
                    mkAResult (submitted formType) [c]
                      (Some (buildLead formType now formData))
              end
          end
    end.

(** The values submitted under the multi-value key [k ++ "[]"], in
    body order. *)
Definition arrayValues (k : string) (entries : FormData) : list string :=
  map snd (filter (fun kv => String.eqb (fst kv) (k ++ "[]")) entries).

Definition arrayProp (vs : list string) : option LeadValue :=
  match vs with
  | [] => None
  | _ => Some (LArr vs)
  end.

(** No later entry assigns [k], as a scalar or as an array. *)
Definition untouched (k : string) (entries : FormData) : bool :=
  negb (existsb (fun kv => String.eqb (fst kv) k
                           || String.eqb (fst kv) (k ++ "[]")) entries).

(** The provider's answer has a JSON body whose [success] is truthy. *)
Definition accepted (r : FetchResult) : bool :=
  match r with
  | FetchThrows _ => false
  | FetchResponse resp =>
      match respJson resp with
      | Some v => negb (falsyProp (Js.prop v "success"))
      | None => false
      end
  end.

End AstroLead.

(* ------------------------------------------------------------------ *)
(** ** The earlier variant of the handler (lead.ts 482-692)

    It answers in JSON only, asks for email and token whatever the
    category, and lets an exception of [fetch] reach its [catch]. *)

Module Legacy.

Record Env : Type := mkEnv {
  TURNSTILE_SECRET_KEY : option string;
  RESEND_API_KEY : option string;
  RESEND_FROM_EMAIL : option string;
  RESEND_FROM_NAME : option string;
  TO_EARLY_OFFER : option string;
  TO_CONTACT : option string;
  TO_QUOTE : option string;
  TO_DEFAULT : option string
}.

(** [decoded] is what [await req.formData()] gives: [inl m] when it
    rejects with an error whose text is [m]. *)
Record Request : Type := mkRequest {
  reqHeaders : Headers;
  decoded : string + FormData
}.

(** Computations that call out and may throw: [inl m] is an exception
    whose text [String(err?.message || err)] is [m]. *)
Definition IOE (A : Type) : Type := Network -> Log -> (string + A) * Log.

Definition retE {A} (a : A) : IOE A := fun _ log => (inr a, log).

Definition bindE {A B} (m : IOE A) (k : A -> IOE B) : IOE B :=
  fun net log =>
    match m net log with
    | (inl err, log') => (inl err, log')
    | (inr a, log') => k a net log'
    end.

Notation "x <~ m ;; k" := (bindE m (fun x => k))
  (at level 61, m at next level, right associativity).

(** [await fetch(...)]: a network error is thrown. *)
Definition fetchE (c : OutCall) : IOE HttpResponse :=
  fun net log =>
    let r := net log c in
    match r with
    | FetchThrows m => (inl m, (log ++ [(c, r)])%list)
    | FetchResponse resp => (inr resp, (log ++ [(c, r)])%list)
    end.

(** lead.ts 578-586 *)
Definition json (data : JsValue) (st : Z) : Response :=
  mkResponse st
    [("Content-Type", "application/json; charset=utf-8");
     ("Cache-Control", "no-store")]
    (BodyJson data).

(** lead.ts 588-597 *)
Definition resolveToEmail (formType : string) (e : Env) : option string :=
  let t := toLowerCase formType in
  if String.eqb t "early_offer" then
    Js.or (Js.or (TO_EARLY_OFFER e) (TO_DEFAULT e)) None
  else if String.eqb t "contact" then
    Js.or (Js.or (TO_CONTACT e) (TO_DEFAULT e)) None
  else if String.eqb t "quote" then
    Js.or (Js.or (TO_QUOTE e) (TO_DEFAULT e)) None
  else Js.or (TO_DEFAULT e) None.

(** lead.ts 599-626 *)
Definition buildTextBody (formType email firstName lastName phone
    message : string) (ip : option string) (userAgent referer : string)
  : string :=
  join newline
    [ "Form Type: " ++ formType;
      "Email: " ++ email;
      "Name: " ++ Js.strOr (join " " (filter nonEmpty [firstName; lastName]))
                           "(not provided)";
      "Phone: " ++ Js.strOr phone "(not provided)";
      "";
      "Message:";
      Js.strOr message "(none)";
      "";
      "Meta:";
      "IP: " ++ Js.orStr ip "(unknown)";
      "User-Agent: " ++ Js.strOr userAgent "(unknown)";
      "Referer: " ++ Js.strOr referer "(unknown)" ].

(** lead.ts 648-655: what [verifyTurnstile] makes of a response. *)
Definition verifyOutcome (resp : HttpResponse) : SafeResult :=
  let data := match respJson resp with Some v => v | None => JNull end in
  if negb (Js.truthyValue data)
     || negb (Js.isTrue (Js.prop data "success")) then
    mkSafe false (Some data)
  else mkSafe true None.

(** lead.ts 628-656 *)
Definition verifyTurnstile (token : string) (secretKey ip : option string)
  : IOE SafeResult :=
  if negb (Js.truthy secretKey) then
    retE (mkSafe false (Some (JStr "TURNSTILE_SECRET_KEY missing")))
  else
    resp <~ fetchE (CallVerify (asString secretKey) token
                      (if Js.truthy ip then ip else None)) ;;
    retE (verifyOutcome resp).

(** lead.ts 685-691: what [sendWithResend] makes of a response. *)
Definition sendOutcome (resp : HttpResponse) : SafeResult :=
  if negb (respOk resp) then
    mkSafe false
      (Some (obj [("status", JNum (respStatus resp));
                  ("body", JStr (match respText resp with
                                 | Some s => s
                                 | None => ""
                                 end))]))
  else
    mkSafe true
      (Some (match respJson resp with Some v => v | None => JObj [] end)).

(** lead.ts 658-692 *)
Definition sendWithResend (apiKey fromEmail fromName : option string)
    (toAddr subj txt : string) : IOE SafeResult :=
  if negb (Js.truthy apiKey) then
    retE (mkSafe false (Some (JStr "RESEND_API_KEY missing")))
  else if negb (Js.truthy fromEmail) then
    retE (mkSafe false (Some (JStr "RESEND_FROM_EMAIL missing")))
  else
    resp <~ fetchE (emailCall (asString apiKey) (asString fromEmail)
                      fromName toAddr subj txt false) ;;
    retE (sendOutcome resp).

(** lead.ts 490-498: the fields, trimmed and otherwise as submitted. *)
Record Fields : Type := mkFields {
  formType : string;
  email : string;
  firstName : string;
  lastName : string;
  phone : string;
  message : string;
  turnstileToken : string
}.

Definition extractFields (form : FormData) : Fields :=
  {| formType := field form "formType";
     email := field form "email";
     firstName := field form "firstName";
     lastName := field form "lastName";
     phone := field form "phone";
     message := field form "message";
     turnstileToken := field form "cf-turnstile-response" |}.

Definition failure (msg : string) (d : option JsValue) (st : Z)
  : Response :=
  json (obj ([("success", JBool false); ("error", JStr msg)]
             ++ optProp "details" d)%list) st.

(** lead.ts 500-503: [Some r] when the handler returns [r] here. *)
Definition validate (f : Fields) : option Response :=
  if isEmpty (formType f) then Some (failure "Missing formType" None 400)
  else if isEmpty (email f) then Some (failure "Missing email" None 400)
  else if isEmpty (turnstileToken f) then
    Some (failure "Missing Turnstile token" None 400)
  else None.

(** lead.ts 505-555, inside the [try]. *)
Definition submit (e : Env) (h : Headers) (f : Fields) : IOE Response :=
  let ip := Js.or (hCfConnectingIp h) None in
  verified <~ verifyTurnstile (turnstileToken f)
                (TURNSTILE_SECRET_KEY e) ip ;;
  if negb (ok verified) then
    retE (failure "Turnstile verification failed" (details verified) 403)
  else
    let toAddr := resolveToEmail (formType f) e in
    if negb (Js.truthy toAddr) then
      retE (failure ("Unknown formType: " ++ formType f) None 400)
    else
      let subj := "[" ++ formType f ++ "] New lead from " ++ email f in
      let txt :=
        buildTextBody (formType f) (email f) (firstName f) (lastName f)
          (phone f) (message f) ip
          (Js.orStr (hUserAgent h) "") (Js.orStr (hReferer h) "") in
      sendResult <~ sendWithResend (RESEND_API_KEY e) (RESEND_FROM_EMAIL e)
                      (RESEND_FROM_NAME e) (asString toAddr) subj txt ;;
      if negb (ok sendResult) then
        retE (failure "Email send failed" (details sendResult) 502)
      else retE (json (obj [("success", JBool true)]) 200).

(** lead.ts 482-559 *)
Definition onRequestPost (req : Request) (e : Env) : IO Response :=
  fun net log =>
    let attempt : IOE Response :=
      match decoded req with
      | inl m => fun _ lg => (inl m, lg)
      | inr form =>
          let f := extractFields form in
          match validate f with
          | Some r => retE r
          | None => submit e (reqHeaders req) f
          end
      end in
    match attempt net log with
    | (inr r, log') => (r, log')
    | (inl m, log') => (failure "Server error" (Some (JStr m)) 500, log')
    end.

(** The provider's answer as [verifyTurnstile] reads it: a JSON object
    whose [success] is [true], whatever the HTTP status. *)
Definition accepts (r : FetchResult) : bool :=
  match r with
  | FetchThrows _ => false
  | FetchResponse resp =>
      match respJson resp with
      | Some (JObj props) =>
          match Js.lookup props "success" with
          | Some (JBool true) => true
          | _ => false
          end
      | _ => false
      end
  end.

(** The log opens with a verification that [verifyTurnstile] accepts. *)
Definition gatePassed (log : Log) : bool :=
  match log with
  | (c, r) :: _ => isVerify c && accepts r
  | [] => false
  end.

Definition statusCodes : list Z := [200; 400; 403; 500; 502].

(** lead.ts 556-558: the [catch]. *)
Definition serverError (m : string) : Response :=
  failure "Server error" (Some (JStr m)) 500.

(** The verification call of lead.ts 508-512. *)
Definition verifyCall (e : Env) (h : Headers) (f : Fields) : OutCall :=
  CallVerify (asString (TURNSTILE_SECRET_KEY e)) (turnstileToken f)
    (if Js.truthy (Js.or (hCfConnectingIp h) None)
     then Js.or (hCfConnectingIp h) None else None).

(** The notification of lead.ts 528-548. *)
Definition primaryCall (e : Env) (h : Headers) (f : Fields) : OutCall :=
  emailCall (asString (RESEND_API_KEY e)) (asString (RESEND_FROM_EMAIL e))
    (RESEND_FROM_NAME e) (asString (resolveToEmail (formType f) e))
    ("[" ++ formType f ++ "] New lead from " ++ email f)
    (buildTextBody (formType f) (email f) (firstName f) (lastName f)
       (phone f) (message f) (Js.or (hCfConnectingIp h) None)
       (Js.orStr (hUserAgent h) "") (Js.orStr (hReferer h) ""))
    false.

End Legacy.

(* ------------------------------------------------------------------ *)
(** ** Vocabulary of the properties *)

(** The categories [resolveToEmail] names. *)
Definition recognized (t : string) : bool :=
  let t := toLowerCase t in
  String.eqb t "early_offer" || String.eqb t "fitting"
  || String.eqb t "events" || String.eqb t "reviews".

(** The override slots [resolveToEmail] consults for a category before
    the default, in order; the review category has two. *)
Definition overrideSlots (t : string) (e : Env) : list (option string) :=
  let t := toLowerCase t in
  if String.eqb t "early_offer" then [TO_EARLY_OFFER e]
  else if String.eqb t "fitting" then [TO_BOOK_FITTING e]
  else if String.eqb t "events" then [TO_EVENT_FLORAL e]
  else if String.eqb t "reviews" then [TO_REVIEWS e; TO_FEEDBACK e]
  else [].

(** The first configured (truthy) slot of a list. *)
Fixpoint firstSet (slots : list (option string)) : option string :=
  match slots with
  | [] => None
  | o :: rest => if Js.truthy o then o else firstSet rest
  end.


Definition hasKey (form : FormData) (name : string) : bool :=
  existsb (fun kv => String.eqb (fst kv) name) form.








(** Two texts equal up to letter case and surrounding whitespace. *)
Definition sameUpToCaseAndSpace (a b : string) : Prop :=
  exists l1 c1 r1 l2 c2 r2,
    a = l1 ++ c1 ++ r1 /\ b = l2 ++ c2 ++ r2 /\
    allWhiteSpace l1 = true /\ allWhiteSpace r1 = true /\
    allWhiteSpace l2 = true /\ allWhiteSpace r2 = true /\
    toLowerCase c1 = toLowerCase c2.

(** The provider's answer, read as the claim words it: a successful HTTP
    status and a JSON object whose [success] is [true]. *)
Definition verified (r : FetchResult) : bool :=
  match r with
  | FetchThrows _ => false
  | FetchResponse resp =>
      respOk resp &&
      match respJson resp with
      | Some (JObj props) =>
          match Js.lookup props "success" with
          | Some (JBool true) => true
          | _ => false
          end
      | _ => false
      end
  end.

(** A courtesy message carries the compliance headers. *)
Definition isAutoReply (c : OutCall) : bool :=
  match c with
  | CallSend _ b =>
      match emailHeaders b with Some _ => true | None => false end
  | CallVerify _ _ _ => false
  end.

Definition isPrimary (c : OutCall) : bool := isSend c && negb (isAutoReply c).

Definition fetchOk (r : FetchResult) : bool :=
  match r with
  | FetchThrows _ => false
  | FetchResponse resp => respOk resp
  end.

(** The primary notification was sent and accepted. *)
Definition primarySent (log : Log) : bool :=
  existsb (fun cr => isPrimary (fst cr) && fetchOk (snd cr)) log.

(** Two networks that answer alike except to courtesy messages. *)
Definition agreeOffAutoReply (net1 net2 : Network) : Prop :=
  forall log c, isAutoReply c = false -> net1 log c = net2 log c.

Definition turnstileFailed (wj : bool) (d : option JsValue) : Response :=
  respond wj 400
    (obj ([("ok", JBool false); ("error", JStr "turnstile_failed")]
          ++ optProp "details" d)%list)
    "Captcha failed. Please try again.".

Definition unknownFormtype (wj : bool) (t : string) : Response :=
  respond wj 400
    (obj [("ok", JBool false); ("error", JStr "unknown_formtype");
          ("formType", JStr t)])
    "Unknown form type.".

Definition missingEmail (wj : bool) : Response :=
  respond wj 400
    (obj [("ok", JBool false); ("error", JStr "missing_email")])
    "Please enter an email.".

Definition missingTurnstile (wj : bool) : Response :=
  respond wj 400
    (obj [("ok", JBool false); ("error", JStr "missing_turnstile")])
    "Captcha missing. Please refresh and try again.".

Definition resendFailed (wj : bool) (d : option JsValue) : Response :=
  respond wj 502
    (obj ([("ok", JBool false); ("error", JStr "resend_failed")]
          ++ optProp "details" d)%list)
    "Message failed to send. Please try again.".

(** The verification call of lead.ts 95-99. *)
Definition verifyCall (e : Env) (ip : option string) (f : Fields)
  : OutCall :=
  CallVerify (asString (TURNSTILE_SECRET_KEY e)) (turnstileToken f)
             (if Js.truthy ip then ip else None).

(** The primary notification of lead.ts 121-145. *)
Definition primaryCall (e : Env) (h : Headers) (ip : option string)
    (f : Fields) : OutCall :=
  emailCall (asString (RESEND_API_KEY e)) (asString (RESEND_FROM_EMAIL e))
    (RESEND_FROM_NAME e) (asString (resolveToEmail (formType f) e))
    (subjectOf f)
    (buildTextBody (formType f) (email f) (firstName f) (lastName f)
       (phone f) (message f) ip
       (Js.orStr (hUserAgent h) "") (Js.orStr (hReferer h) "")
       (Js.orUndefined (rating f)) (Js.orUndefined (source f))
       (Js.orUndefined (name f)))
    false.

Definition onlyAutoReplies (l : Log) : bool :=
  forallb (fun cr => isAutoReply (fst cr)) l.

Definition anySend (l : Log) : bool :=
  existsb (fun cr => isSend (fst cr)) l.

Definition anyVerify (l : Log) : bool :=
  existsb (fun cr => isVerify (fst cr)) l.

(** The addressee list of an outbound message. *)
Definition addressees (c : OutCall) : list string :=
  match c with
  | CallSend _ b => to b
  | CallVerify _ _ _ => []
  end.

(** Email and challenge token are both required: a missing email is
    reported first, then a missing token. *)
Definition emailAndTokenMandatory (wj : bool) (f : Fields) : Prop :=
  (email f = "" -> validate wj f = Some (missingEmail wj)) /\
  (email f <> "" -> turnstileToken f = "" ->
   validate wj f = Some (missingTurnstile wj)).

Definition allUnset (slots : list (option string)) : bool :=
  forallb (fun o => negb (Js.truthy o)) slots.

(** The fixed texts the handler passes to [respond] as [fallbackMsg]. *)
Definition genericMessages : list string :=
  [ "Server misconfigured (missing environment variables).";
    "Invalid form submission.";
    "Missing form type.";
    "Please enter an email.";
    "Captcha missing. Please refresh and try again.";
    "Captcha failed. Please try again.";
    "Unknown form type.";
    "Message failed to send. Please try again." ].

(** A response without diagnostic detail: the success redirect, or the
    HTML page of one of the fixed texts. *)
Definition genericResponse (r : Response) : Prop :=
  r = successResponse \/
  exists st m, In m genericMessages /\ r = html st m.

(** A form whose distinguished [formType] entry holds [v]. *)
Definition withFormType (pre post : FormData) (v : string) : FormData :=
  (pre ++ ("formType", v) :: post)%list.

(* ------------------------------------------------------------------ *)
(** ** Sample configuration, requests and networks *)

Module Sample.

Definition env0 : Env :=
  {| TURNSTILE_SECRET_KEY := Some "secret";
     RESEND_API_KEY := Some "re_key";
     RESEND_FROM_EMAIL := Some "noreply@verosboutiqueky.com";
     RESEND_FROM_NAME := None;
     TO_EARLY_OFFER := None;
     TO_BOOK_FITTING := None;
     TO_EVENT_FLORAL := None;
     TO_REVIEWS := None;
     TO_FEEDBACK := None;
     TO_DEFAULT := Some "owner@verosboutiqueky.com" |}.

(** [env0] without a default mailbox. *)
Definition envNoDefault : Env :=
  {| TURNSTILE_SECRET_KEY := Some "secret";
     RESEND_API_KEY := Some "re_key";
     RESEND_FROM_EMAIL := Some "noreply@verosboutiqueky.com";
     RESEND_FROM_NAME := None;
     TO_EARLY_OFFER := None;
     TO_BOOK_FITTING := None;
     TO_EVENT_FLORAL := None;
     TO_REVIEWS := None;
     TO_FEEDBACK := None;
     TO_DEFAULT := None |}.

Definition browserHeaders : Headers :=
  {| hAccept := Some "text/html,application/xhtml+xml";
     hCfConnectingIp := Some "203.0.113.7";
     hUserAgent := Some "Mozilla/5.0";
     hReferer := None |}.

Definition jsonHeaders : Headers :=
  {| hAccept := Some "application/json";
     hCfConnectingIp := Some "203.0.113.7";
     hUserAgent := Some "curl/8";
     hReferer := None |}.

Definition mkCtx (h : Headers) (e : Env) (form : FormData)
  : option Context :=
  Some (mkContext (Some (mkRequest h (Some form))) (Some e)).

Definition okJson : HttpResponse :=
  mkHttpResponse 200 (Some "{}")
    (Some (JObj [("success", JBool true)])).

Definition rejectJson : HttpResponse :=
  mkHttpResponse 200 (Some "{}")
    (Some (JObj [("success", JBool false)])).

Definition error500 : HttpResponse :=
  mkHttpResponse 500 (Some "Internal Server Error") None.

(** Every provider call succeeds. *)
Definition netAllOk : Network := fun _ _ => FetchResponse okJson.

(** The verification provider answers [{success: false}]. *)
Definition netVerifyRejects : Network :=
  fun _ c => if isVerify c then FetchResponse rejectJson
             else FetchResponse okJson.

(** Courtesy messages fail with a 500; every other call succeeds. *)
Definition netAutoReplyFails : Network :=
  fun _ c => if isAutoReply c then FetchResponse error500
             else FetchResponse okJson.

Definition earlyOfferForm : FormData :=
  [ ("formType", "early_offer"); ("email", "a@x.com");
    ("firstName", "Ana"); ("cf-turnstile-response", "tok") ].

Definition contactForm : FormData :=
  [ ("formType", "contact"); ("email", "a@x.com");
    ("cf-turnstile-response", "tok") ].

Definition reviewForm : FormData :=
  [ ("formType", "reviews"); ("rating", "5") ].

Definition reviewFormWithToken : FormData :=
  [ ("formType", "reviews"); ("rating", "5");
    ("cf-turnstile-response", "tok") ].

Definition lowReviewForm : FormData :=
  [ ("formType", "reviews"); ("rating", "2") ].



End Sample.

(* ------------------------------------------------------------------ *)
(** ** Vocabulary of the further properties *)

(** The entity [escapeHtml] writes for one character. *)
Definition escapeChar (c : ascii) : string :=
  if Ascii.eqb c "&" then "&amp;"
  else if Ascii.eqb c "<" then "&lt;"
  else if Ascii.eqb c ">" then "&gt;"
  else if Ascii.eqb c (ascii_of_nat 34) then "&quot;"
  else if Ascii.eqb c "'" then "&#039;"
  else String c EmptyString.

(** Escaping in one pass, character by character. *)
Fixpoint escapeOnePass (s : string) : string :=
  match s with
  | EmptyString => EmptyString
  | String c r => escapeChar c ++ escapeOnePass r
  end.

(** [s] holds none of the characters [cs]. *)
Fixpoint noneOf (cs : list ascii) (s : string) : bool :=
  match s with
  | EmptyString => true
  | String c r => negb (existsb (Ascii.eqb c) cs) && noneOf cs r
  end.

(** The characters that open or close markup or an attribute value. *)
Definition markupChars : list ascii :=
  ["<"; ">"; ascii_of_nat 34; "'"]%char.

(** lead.ts 39-42: no required variable is missing. *)
Definition envComplete (e : Env) : bool :=
  Js.truthy (TURNSTILE_SECRET_KEY e) && Js.truthy (RESEND_API_KEY e)
  && Js.truthy (RESEND_FROM_EMAIL e).

(** The names of the required variables that are unset or empty, in the
    order of [required]. *)
Definition missingOf (e : Env) : list string :=
  ((if Js.truthy (TURNSTILE_SECRET_KEY e) then []
    else ["TURNSTILE_SECRET_KEY"])
   ++ (if Js.truthy (RESEND_API_KEY e) then [] else ["RESEND_API_KEY"])
   ++ (if Js.truthy (RESEND_FROM_EMAIL e) then []
       else ["RESEND_FROM_EMAIL"]))%list.

Definition missingEnv (wj : bool) (missing : list string) : Response :=
  respond wj 500
    (obj [("ok", JBool false); ("error", JStr "missing_env");
          ("missing", JArr (map JStr missing))])
    "Server misconfigured (missing environment variables).".

(** The fields of the submission a context carries, when its form can be
    decoded. *)
Definition submission (context : option Context) : option Fields :=
  match context with
  | Some ctx =>
      match request ctx with
      | Some req =>
          match formData req with
          | Some form => Some (extractFields form)
          | None => None
          end
      | None => None
      end
  | None => None
  end.

(** The log opens with an accepted verification. *)
Definition gatePassed (log : Log) : bool :=
  match log with
  | (c, r) :: _ => isVerify c && verified r
  | [] => false
  end.

(** 0: verification, 1: primary notification, 2: courtesy message. *)
Definition callKind (c : OutCall) : nat :=
  if isVerify c then 0%nat else if isAutoReply c then 2%nat else 1%nat.

(** The sequences of outbound calls one request can make. *)
Definition callShapes : list (list nat) :=
  [ []; [0]; [0; 1]; [0; 1; 2]; [1]; [1; 2] ]%nat.

(** lead.ts 156, 198, 265: the categories that have a courtesy message. *)
Definition autoReplyExpected (f : Fields) : bool :=
  String.eqb (formType f) "early_offer"
  || String.eqb (formType f) "fitting"
  || String.eqb (formType f) "events".

Definition autoReplySubject (f : Fields) : string :=
  if String.eqb (formType f) "early_offer" then
    "Your Exclusive Early Offer - Vero's Boutique"
  else if String.eqb (formType f) "fitting" then
    "Appointment Request Received — VERO'S BOUTIQUE LLC"
  else "Consultation Request Received — VERO'S BOUTIQUE LLC".

Definition autoReplyText (f : Fields) (form : FormData) : string :=
  if String.eqb (formType f) "early_offer" then earlyOfferReplyText f
  else if String.eqb (formType f) "fitting" then fittingReplyText f form
  else eventsReplyText f.

(** The courtesy message of a submission. *)
Definition autoReplyCall (e : Env) (f : Fields) (form : FormData)
  : OutCall :=
  emailCall (asString (RESEND_API_KEY e)) (asString (RESEND_FROM_EMAIL e))
    (RESEND_FROM_NAME e) (email f) (autoReplySubject f)
    (autoReplyText f form) true.

(** The machine-readable codes of lead.ts. *)
Definition errorCodes : list string :=
  [ "missing_env"; "invalid_form_data"; "missing_formtype";
    "missing_email"; "missing_turnstile"; "turnstile_failed";
    "unknown_formtype"; "resend_failed"; "server_error" ].

(** A JSON fault: an object [{ok: false, error: code, ...}] with one of
    the codes. *)
Definition jsonFault (r : Response) : Prop :=
  exists code rest,
    In code errorCodes /\
    body r = BodyJson (JObj (("ok", JBool false)
                              :: ("error", JStr code) :: rest)) /\
    respHeaders r = [("Content-Type", "application/json; charset=utf-8")].

Definition statusCodes : list Z := [303; 400; 500; 502].

Definition envOf (context : option Context) : option Env :=
  match context with Some ctx => env ctx | None => None end.

Definition requestOf (context : option Context) : option Request :=
  match context with Some ctx => request ctx | None => None end.

Definition formOf (context : option Context) : option FormData :=
  match requestOf context with Some req => formData req | None => None end.

(** lead.ts 91: [req.headers.get("CF-Connecting-IP") || undefined] *)
Definition ipOf (h : Headers) : option string :=
  Js.or (hCfConnectingIp h) None.

(** What precedes routing (lead.ts 75-108): a submission goes on either
    without a token, which only a high-rating review may do, or after
    its token was verified. *)
Inductive Gate (e : Env) (ip : option string) (f : Fields) (net : Network)
  : Log -> Prop :=
| GateExempt :
    turnstileToken f = "" -> isHighRating f = true ->
    Gate e ip f net []
| GateVerified :
    turnstileToken f <> "" ->
    verified (net [] (verifyCall e ip f)) = true ->
    Gate e ip f net [(verifyCall e ip f, net [] (verifyCall e ip f))].

(** The terminal states of one request (lead.ts 34-326), each with the
    response returned and the outbound calls made. *)
Inductive Terminal (context : option Context) (net : Network)
  : Response -> Log -> Prop :=
| T_Unexpected p :
    envOf context = None ->
    Terminal context net (serverError (typeErrorMessage p)) []
| T_MissingEnv e :
    envOf context = Some e -> envComplete e = false ->
    Terminal context net
      (missingEnv (wantsJson context) (missingOf e)) []
| T_MalformedBody e :
    envOf context = Some e -> envComplete e = true ->
    formOf context = None ->
    Terminal context net (invalidFormData (wantsJson context)) []
| T_Invalid e form r :
    envOf context = Some e -> envComplete e = true ->
    formOf context = Some form ->
    validate (wantsJson context) (extractFields form) = Some r ->
    Terminal context net r []
| T_ChallengeRejected e req form :
    envOf context = Some e -> envComplete e = true ->
    requestOf context = Some req -> formData req = Some form ->
    let f := extractFields form in
    let c := verifyCall e (ipOf (headers req)) f in
    validate (wantsJson context) f = None ->
    turnstileToken f <> "" ->
    verified (net [] c) = false ->
    Terminal context net
      (turnstileFailed (wantsJson context)
         (details (verifyOutcome (net [] c))))
      [(c, net [] c)]
| T_Unroutable e req form pre :
    envOf context = Some e -> envComplete e = true ->
    requestOf context = Some req -> formData req = Some form ->
    let f := extractFields form in
    validate (wantsJson context) f = None ->
    Gate e (ipOf (headers req)) f net pre ->
    Js.truthy (resolveToEmail (formType f) e) = false ->
    Terminal context net
      (unknownFormtype (wantsJson context) (formType f)) pre
| T_DispatchFailed e req form pre :
    envOf context = Some e -> envComplete e = true ->
    requestOf context = Some req -> formData req = Some form ->
    let f := extractFields form in
    let c := primaryCall e (headers req) (ipOf (headers req)) f in
    validate (wantsJson context) f = None ->
    Gate e (ipOf (headers req)) f net pre ->
    Js.truthy (resolveToEmail (formType f) e) = true ->
    fetchOk (net pre c) = false ->
    Terminal context net
      (resendFailed (wantsJson context)
         (details (sendOutcome (net pre c))))
      (pre ++ [(c, net pre c)])%list
| T_Completed e req form pre :
    envOf context = Some e -> envComplete e = true ->
    requestOf context = Some req -> formData req = Some form ->
    let f := extractFields form in
    let c := primaryCall e (headers req) (ipOf (headers req)) f in
    let sent := (pre ++ [(c, net pre c)])%list in
    validate (wantsJson context) f = None ->
    Gate e (ipOf (headers req)) f net pre ->
    Js.truthy (resolveToEmail (formType f) e) = true ->
    fetchOk (net pre c) = true ->
    Terminal context net successResponse
      (sent ++ (if autoReplyExpected f
                then [(autoReplyCall e f form,
                       net sent (autoReplyCall e f form))]
                else []))%list.

Definition missingFormtype (wj : bool) : Response :=
  respond wj 400
    (obj [("ok", JBool false); ("error", JStr "missing_formtype")])
    "Missing form type.".

Definition anyAutoReply (l : Log) : bool :=
  existsb (fun cr => isAutoReply (fst cr)) l.

(** The compliance headers of a message, when it has any. *)
Definition compliance (c : OutCall) : option (list (string * string)) :=
  match c with
  | CallSend _ b => emailHeaders b
  | CallVerify _ _ _ => None
  end.

(** The [remoteip] parameter of a verification call. *)
Definition remoteipOf (c : OutCall) : option string :=
  match c with
  | CallVerify _ _ ip => ip
  | CallSend _ _ => None
  end.

(* ------------------------------------------------------------------ *)
(** ** Facts about the string operations *)

Section StringFacts.

Lemma isWhiteSpace_lowerChar (c : ascii) :
  isWhiteSpace (lowerChar c) = isWhiteSpace c.
Proof.
  destruct c as [[] [] [] [] [] [] [] []]; reflexivity.
Qed.

Lemma isEmpty_toLowerCase (s : string) :
  isEmpty (toLowerCase s) = isEmpty s.
Proof. destruct s; reflexivity. Qed.

Lemma toLowerCase_trimStart (s : string) :
  toLowerCase (trimStart s) = trimStart (toLowerCase s).
Proof.
  induction s as [|c r IH]; [reflexivity|].
  cbn [trimStart toLowerCase]. rewrite isWhiteSpace_lowerChar.
  destruct (isWhiteSpace c); [exact IH | reflexivity].
Qed.

Lemma toLowerCase_trimEnd (s : string) :
  toLowerCase (trimEnd s) = trimEnd (toLowerCase s).
Proof.
  induction s as [|c r IH]; [reflexivity|].
  cbn [trimEnd toLowerCase]. rewrite isWhiteSpace_lowerChar, <- IH.
  rewrite isEmpty_toLowerCase.
  destruct (isWhiteSpace c && isEmpty (trimEnd r)); reflexivity.
Qed.

Lemma toLowerCase_trim (s : string) :
  toLowerCase (trim s) = trim (toLowerCase s).
Proof.
  unfold trim. now rewrite toLowerCase_trimEnd, toLowerCase_trimStart.
Qed.

Lemma trimStart_allWhiteSpace (s : string) :
  allWhiteSpace s = true -> trimStart s = "".
Proof.
  induction s as [|c r IH]; [reflexivity|]. cbn.
  destruct (isWhiteSpace c); [exact IH | discriminate].
Qed.

Lemma trimEnd_allWhiteSpace (s : string) :
  allWhiteSpace s = true -> trimEnd s = "".
Proof.
  induction s as [|c r IH]; [reflexivity|]. cbn.
  destruct (isWhiteSpace c); [|discriminate].
  intros H. now rewrite (IH H).
Qed.

Lemma trimStart_app_left (l s : string) :
  allWhiteSpace l = true -> trimStart (l ++ s) = trimStart s.
Proof.
  induction l as [|c r IH]; [reflexivity|]. cbn.
  destruct (isWhiteSpace c); [exact IH | discriminate].
Qed.

Lemma trimEnd_app_right (s r : string) :
  allWhiteSpace r = true -> trimEnd (s ++ r) = trimEnd s.
Proof.
  intros Hr. induction s as [|c s' IH].
  - cbn. now apply trimEnd_allWhiteSpace.
  - cbn. now rewrite IH.
Qed.

Lemma trimStart_app_right (s r : string) :
  allWhiteSpace r = true ->
  trimStart (s ++ r) =
  if allWhiteSpace s then "" else trimStart s ++ r.
Proof.
  intros Hr. induction s as [|c s' IH].
  - cbn. now apply trimStart_allWhiteSpace.
  - cbn. destruct (isWhiteSpace c); [exact IH | reflexivity].
Qed.

Lemma trim_padding (l c r : string) :
  allWhiteSpace l = true -> allWhiteSpace r = true ->
  trim (l ++ c ++ r) = trim c.
Proof.
  intros Hl Hr. unfold trim.
  rewrite (trimStart_app_left _ _ Hl), (trimStart_app_right _ _ Hr).
  destruct (allWhiteSpace c) eqn:Hc.
  - now rewrite (trimStart_allWhiteSpace _ Hc).
  - now apply trimEnd_app_right.
Qed.

(** The normal form of a category text depends on the text only up to
    case and surrounding whitespace. *)
Lemma normalize_same (a b : string) :
  sameUpToCaseAndSpace a b ->
  toLowerCase (trim a) = toLowerCase (trim b).
Proof.
  intros (l1 & c1 & r1 & l2 & c2 & r2 & -> & -> & Hl1 & Hr1 & Hl2 & Hr2 & Hc).
  rewrite !trim_padding by assumption.
  now rewrite !toLowerCase_trim, Hc.
Qed.









End StringFacts.

(* ------------------------------------------------------------------ *)
(** ** The stages of the handler, run on a network *)

Section Stages.

Variables (net : Network) (log : Log).

Lemma sendWithResendSafe_run apiKey fromEmail fromName toAddr subj txt tr :
  sendWithResendSafe apiKey fromEmail fromName toAddr subj txt tr net log =
  let c := emailCall apiKey fromEmail fromName toAddr subj txt tr in
  (sendOutcome (net log c), (log ++ [(c, net log c)])%list).
Proof. reflexivity. Qed.

Lemma verifyTurnstileSafe_run token secretKey ip :
  verifyTurnstileSafe token secretKey ip net log =
  let c := CallVerify secretKey token (if Js.truthy ip then ip else None) in
  (verifyOutcome (net log c), (log ++ [(c, net log c)])%list).
Proof. reflexivity. Qed.

Lemma ok_sendOutcome (r : FetchResult) : ok (sendOutcome r) = fetchOk r.
Proof.
  destruct r as [m|resp]; cbn; [reflexivity|].
  destruct (respOk resp); reflexivity.
Qed.

Lemma ok_verifyOutcome (r : FetchResult) :
  ok (verifyOutcome r) = verified r.
Proof.
  destruct r as [m|resp]; cbn; [reflexivity|].
  destruct (respOk resp); cbn; [|reflexivity].
  destruct (respJson resp) as [[| b | n | s | items | props]|]; cbn;
    try reflexivity.
  - destruct b; reflexivity.
  - destruct (n =? 0); reflexivity.
  - destruct (isEmpty s); reflexivity.
  - destruct (Js.lookup props "success") as [[| [] | | | |]|]; reflexivity.
Qed.

Lemma isAutoReply_emailCall apiKey fromEmail fromName toAddr subj txt tr :
  isAutoReply (emailCall apiKey fromEmail fromName toAddr subj txt tr) = tr.
Proof. destruct tr; reflexivity. Qed.

Lemma isPrimary_primaryCall e h ip f : isPrimary (primaryCall e h ip f) = true.
Proof. reflexivity. Qed.

Lemma isAutoReply_primaryCall e h ip f :
  isAutoReply (primaryCall e h ip f) = false.
Proof. reflexivity. Qed.

Lemma isAutoReply_verifyCall e ip f : isAutoReply (verifyCall e ip f) = false.
Proof. reflexivity. Qed.

End Stages.

Lemma autoReply_run e f subj txt net log :
  exists c, isAutoReply c = true /\ isSend c = true /\
    autoReply e f subj txt net log = (tt, (log ++ [(c, net log c)])%list).
Proof.
  eexists. split; [|split]; cycle 2.
  - unfold autoReply, bind. rewrite sendWithResendSafe_run.
    cbv beta iota zeta.
    match goal with |- context [negb ?b] => destruct (negb b) end;
      reflexivity.
  - reflexivity.
  - reflexivity.
Qed.

Lemma onlyAutoReplies_app l1 l2 :
  onlyAutoReplies (l1 ++ l2)%list = onlyAutoReplies l1 && onlyAutoReplies l2.
Proof. apply forallb_app. Qed.

Lemma autoReplies_run e f form net log :
  exists l, onlyAutoReplies l = true /\
    autoReplies e f form net log = (tt, (log ++ l)%list).
Proof.
  unfold autoReplies, bind.
  assert (Hstep : forall (b : bool) subj txt lg,
    exists l, onlyAutoReplies l = true /\
      (if b then autoReply e f subj txt else ret tt) net lg
      = (tt, (lg ++ l)%list)).
  { intros b subj txt lg. destruct b.
    - destruct (autoReply_run e f subj txt net lg) as (c & Hc & _ & ->).
      exists [(c, net lg c)]. split; [cbn; now rewrite Hc | reflexivity].
    - exists []. split; [reflexivity | cbn; now rewrite app_nil_r]. }
  destruct (Hstep (String.eqb (formType f) "early_offer")
              "Your Exclusive Early Offer - Vero's Boutique"
              (earlyOfferReplyText f) log) as (l1 & H1 & ->).
  destruct (Hstep (String.eqb (formType f) "fitting")
              "Appointment Request Received — VERO'S BOUTIQUE LLC"
              (fittingReplyText f form) (log ++ l1)%list) as (l2 & H2 & ->).
  destruct (Hstep (String.eqb (formType f) "events")
              "Consultation Request Received — VERO'S BOUTIQUE LLC"
              (eventsReplyText f) ((log ++ l1) ++ l2)%list) as (l3 & H3 & ->).
  exists (l1 ++ l2 ++ l3)%list. split.
  - now rewrite !onlyAutoReplies_app, H1, H2, H3.
  - now rewrite <- !app_assoc.
Qed.

(** lead.ts 110-319 as one equation. *)
Lemma routeAndSend_run wj e h ip f form net log :
  routeAndSend wj e h ip f form net log =
  if negb (Js.truthy (resolveToEmail (formType f) e)) then
    (unknownFormtype wj (formType f), log)
  else
    let c := primaryCall e h ip f in
    let r := net log c in
    if fetchOk r then
      (successResponse, snd (autoReplies e f form net (log ++ [(c, r)])%list))
    else (resendFailed wj (details (sendOutcome r)), (log ++ [(c, r)])%list).
Proof.
  unfold routeAndSend.
  destruct (negb (Js.truthy _)); [reflexivity|].
  unfold bind at 1. rewrite sendWithResendSafe_run. cbv beta iota zeta.
  fold (primaryCall e h ip f).
  rewrite ok_sendOutcome.
  destruct (fetchOk _); cbn [negb]; [|reflexivity].
  unfold bind, ret.
  destruct (autoReplies e f form net _) as [[] lg]. reflexivity.
Qed.

(** lead.ts 58-319 as one equation. *)
Lemma handleForm_run wj e h form net log :
  handleForm wj e h form net log =
  let f := extractFields form in
  let ip := Js.or (hCfConnectingIp h) None in
  match validate wj f with
  | Some r => (r, log)
  | None =>
      if nonEmpty (turnstileToken f) then
        let c := verifyCall e ip f in
        let r := net log c in
        if verified r then
          routeAndSend wj e h ip f form net (log ++ [(c, r)])%list
        else (turnstileFailed wj (details (verifyOutcome r)),
              (log ++ [(c, r)])%list)
      else routeAndSend wj e h ip f form net log
  end.
Proof.
  unfold handleForm. cbv zeta.
  destruct (validate wj _); [reflexivity|].
  unfold bind at 1. unfold challenge.
  destruct (nonEmpty _); [|reflexivity].
  unfold bind at 1. rewrite verifyTurnstileSafe_run. cbv beta iota zeta.
  fold (verifyCall e (Js.or (hCfConnectingIp h) None) (extractFields form)).
  rewrite ok_verifyOutcome.
  destruct (verified _); reflexivity.
Qed.

(** lead.ts 34-56: before the form is read the handler answers without
    calling out; afterwards it is [handleForm]. *)
Lemma onRequestPost_cases (context : option Context) :
  (exists r, forall net, run (onRequestPost context) net = (r, [])) \/
  (exists e h form,
      context = Some (mkContext (Some (mkRequest h (Some form))) (Some e)) /\
      forall net, run (onRequestPost context) net =
                  handleForm (wantsJson context) e h form net []).
Proof.
  destruct context as [[req e]|]; [|left; eexists; reflexivity].
  destruct e as [e|]; [|left; eexists; reflexivity].
  unfold run, onRequestPost. cbn [env request].
  destruct (0 <? _); [left; eexists; reflexivity|].
  destruct req as [[h [form|]]|]; try (left; eexists; reflexivity).
  right. exists e, h, form. split; reflexivity.
Qed.

Section LogFacts.

Lemma primarySent_app (l1 l2 : Log) :
  primarySent (l1 ++ l2)%list = primarySent l1 || primarySent l2.
Proof. apply existsb_app. Qed.

Lemma anySend_app (l1 l2 : Log) :
  anySend (l1 ++ l2)%list = anySend l1 || anySend l2.
Proof. apply existsb_app. Qed.

Lemma anyVerify_app (l1 l2 : Log) :
  anyVerify (l1 ++ l2)%list = anyVerify l1 || anyVerify l2.
Proof. apply existsb_app. Qed.

Lemma onlyAutoReplies_not_primary (l : Log) :
  onlyAutoReplies l = true -> primarySent l = false.
Proof.
  induction l as [|[c r] l IH]; [reflexivity|]. cbn.
  destruct (isAutoReply c) eqn:E; [|discriminate].
  intros H. unfold isPrimary. rewrite E, andb_false_r. cbn. now apply IH.
Qed.

Lemma onlyAutoReplies_not_verify (l : Log) :
  onlyAutoReplies l = true -> anyVerify l = false.
Proof.
  induction l as [|[c r] l IH]; [reflexivity|]. cbn.
  destruct c as [sk tk rip | key mail]; cbn; [discriminate|].
  destruct (emailHeaders mail); [|discriminate]. exact IH.
Qed.

Lemma anySend_calls (context : option Context) (net : Network) :
  existsb isSend (calls context net)
  = anySend (snd (run (onRequestPost context) net)).
Proof.
  unfold calls, anySend.
  induction (snd (run (onRequestPost context) net)) as [|x l IH];
    [reflexivity|]. cbn. now rewrite IH.
Qed.

Lemma anyVerify_calls (context : option Context) (net : Network) :
  existsb isVerify (calls context net)
  = anyVerify (snd (run (onRequestPost context) net)).
Proof.
  unfold calls, anyVerify.
  induction (snd (run (onRequestPost context) net)) as [|x l IH];
    [reflexivity|]. cbn. now rewrite IH.
Qed.

End LogFacts.

(** The outbound calls [routeAndSend] adds: none, or the primary
    notification followed by courtesy messages. *)
Lemma routeAndSend_log wj e h ip f form net log :
  exists l, snd (routeAndSend wj e h ip f form net log) = (log ++ l)%list /\
            anyVerify l = false /\
            (Js.truthy (resolveToEmail (formType f) e) = false -> l = []).
Proof.
  rewrite routeAndSend_run.
  destruct (Js.truthy _); cbn [negb].
  - cbv zeta. destruct (fetchOk _).
    + destruct (autoReplies_run e f form net
                  (log ++ [(primaryCall e h ip f,
                            net log (primaryCall e h ip f))])%list)
        as (l & Hl & ->).
      eexists. split; [cbn [snd]; rewrite <- app_assoc; reflexivity|].
      split; [|discriminate].
      rewrite anyVerify_app, (onlyAutoReplies_not_verify _ Hl). reflexivity.
    + eexists. split; [reflexivity|]. split; [reflexivity | discriminate].
  - exists []. cbn [snd]. rewrite app_nil_r. repeat split; reflexivity.
Qed.

Lemma routeAndSend_fst_agree wj e h ip f form net1 net2 log :
  agreeOffAutoReply net1 net2 ->
  fst (routeAndSend wj e h ip f form net1 log)
  = fst (routeAndSend wj e h ip f form net2 log).
Proof.
  intros Hagree. rewrite !routeAndSend_run.
  destruct (negb _); [reflexivity|]. cbv zeta.
  rewrite <- (Hagree log _ (isAutoReply_primaryCall e h ip f)).
  destruct (fetchOk _); reflexivity.
Qed.

Lemma routeAndSend_primarySent wj e h ip f form net log :
  primarySent log = false ->
  primarySent (snd (routeAndSend wj e h ip f form net log)) = true ->
  fst (routeAndSend wj e h ip f form net log) = successResponse.
Proof.
  intros Hlog. rewrite routeAndSend_run.
  destruct (negb _); [cbn [snd]; congruence|]. cbv zeta.
  destruct (fetchOk _) eqn:Hok; [reflexivity|].
  cbn [snd fst]. rewrite primarySent_app, Hlog. cbn.
  rewrite Hok. discriminate.
Qed.

Lemma handleForm_fst_agree wj e h form net1 net2 :
  agreeOffAutoReply net1 net2 ->
  fst (handleForm wj e h form net1 []) = fst (handleForm wj e h form net2 []).
Proof.
  intros Hagree. rewrite !handleForm_run. cbv zeta.
  destruct (validate wj _); [reflexivity|].
  destruct (nonEmpty _); [|now apply routeAndSend_fst_agree].
  rewrite <- (Hagree [] _ (isAutoReply_verifyCall e _ _)).
  destruct (verified _); [|reflexivity].
  now apply routeAndSend_fst_agree.
Qed.

Lemma handleForm_primarySent wj e h form net :
  primarySent (snd (handleForm wj e h form net [])) = true ->
  fst (handleForm wj e h form net []) = successResponse.
Proof.
  rewrite handleForm_run. cbv zeta.
  destruct (validate wj _); [discriminate|].
  destruct (nonEmpty _); [|now apply routeAndSend_primarySent].
  destruct (verified _); [|discriminate].
  now apply routeAndSend_primarySent.
Qed.

Lemma anyVerify_In (l : Log) (c : OutCall) (r : FetchResult) :
  anyVerify l = false -> In (c, r) l -> isVerify c = true -> False.
Proof.
  intros Hl Hin Hc.
  assert (anyVerify l = true); [|congruence].
  apply existsb_exists. exists (c, r). split; assumption.
Qed.

(* ------------------------------------------------------------------ *)
(** ** Properties of the intake workflow *)

(** C6.  When the primary notification is sent and accepted, the answers
    to the courtesy messages do not reach the caller: on two networks
    that differ only in how they answer auto-replies (one accepting
    them, one failing them, for instance with a 500) the handler
    reports the same response, and it is the success response. *)
Theorem auto_reply_failure_is_swallowed
    (context : option Context) (net1 net2 : Network) :
  agreeOffAutoReply net1 net2 ->
  primarySent (snd (run (onRequestPost context) net1)) = true ->
  response context net1 = successResponse /\
  response context net2 = response context net1.
Proof.
  intros Hagree Hsent. unfold response in *.
  destruct (onRequestPost_cases context) as [(r & Hr)|(e & h & form & _ & Hr)].
  - rewrite Hr in Hsent. discriminate.
  - rewrite !Hr in *. split.
    + now apply handleForm_primarySent.
    + symmetry. now apply handleForm_fst_agree.
Qed.

Lemma auto_reply_failure_is_swallowed_witness :
  response (Sample.mkCtx Sample.jsonHeaders Sample.env0 Sample.earlyOfferForm)
           Sample.netAllOk = successResponse /\
  response (Sample.mkCtx Sample.jsonHeaders Sample.env0 Sample.earlyOfferForm)
           Sample.netAutoReplyFails
  = response (Sample.mkCtx Sample.jsonHeaders Sample.env0
                Sample.earlyOfferForm) Sample.netAllOk.
Proof.
  apply auto_reply_failure_is_swallowed.
  - intros log c Hc. unfold Sample.netAutoReplyFails, Sample.netAllOk.
    rewrite Hc. reflexivity.
  - vm_compute. reflexivity.
Defined.

(** C8.  The verifier reports success exactly when the provider's answer
    is [verified]: an HTTP response with a successful status whose JSON
    body is an object with [success] equal to [true].  Every other
    answer (another [success], another status, a network error, a body
    that is not JSON) is a rejection, whatever the token.  A rejected
    verification ends the request with the [turnstile_failed] response
    and no email is dispatched. *)
Theorem challenge_rejection_terminates
    (token secretKey : string) (ip : option string) (log : Log)
    (context : option Context) (net : Network)
    (c : OutCall) (r : FetchResult) :
  ok (fst (verifyTurnstileSafe token secretKey ip net log))
  = verified (net log (CallVerify secretKey token
                         (if Js.truthy ip then ip else None)))
  /\
  (In (c, r) (snd (run (onRequestPost context) net)) ->
   isVerify c = true -> verified r = false ->
   (exists d, response context net = turnstileFailed (wantsJson context) d)
   /\ existsb isSend (calls context net) = false).
Proof.
  split.
  - rewrite verifyTurnstileSafe_run. cbv zeta. cbn [fst].
    apply ok_verifyOutcome.
  - rewrite anySend_calls. unfold response.
    destruct (onRequestPost_cases context)
      as [(r0 & Hr)|(e & h & form & _ & Hr)]; rewrite Hr.
    + intros [].
    + clear Hr. rewrite handleForm_run. cbv zeta.
      destruct (validate _ _); [intros []|].
      set (ip0 := Js.or (hCfConnectingIp h) None).
      set (f := extractFields form).
      destruct (nonEmpty _).
      * destruct (verified (net [] (verifyCall e ip0 f))) eqn:Hv.
        -- destruct (routeAndSend_log (wantsJson context) e h ip0 f form net
                       ([] ++ [(verifyCall e ip0 f,
                                net [] (verifyCall e ip0 f))])%list)
             as (l & -> & Hl & _).
           intros Hin Hc Hr. exfalso.
           cbn [app] in Hin. destruct Hin as [Heq|Hin].
           ++ injection Heq as <- <-. congruence.
           ++ exact (anyVerify_In _ _ _ Hl Hin Hc).
        -- intros _ _ _. cbn [fst snd]. split; [eexists|]; reflexivity.
      * destruct (routeAndSend_log (wantsJson context) e h ip0 f form net [])
          as (l & Hl1 & Hl & _).
        rewrite Hl1. cbn [app]. intros Hin Hc _. exfalso.
        exact (anyVerify_In _ _ _ Hl Hin Hc).
Qed.

Lemma challenge_rejection_terminates_witness :
  (exists d,
      response (Sample.mkCtx Sample.browserHeaders Sample.env0
                  Sample.earlyOfferForm) Sample.netVerifyRejects
      = turnstileFailed false d)
  /\ existsb isSend
       (calls (Sample.mkCtx Sample.browserHeaders Sample.env0
                 Sample.earlyOfferForm) Sample.netVerifyRejects) = false.
Proof.
  apply (proj2 (challenge_rejection_terminates
                  "tok" "secret" None []
                  (Sample.mkCtx Sample.browserHeaders Sample.env0
                     Sample.earlyOfferForm)
                  Sample.netVerifyRejects
                  (CallVerify "secret" "tok" (Some "203.0.113.7"))
                  (FetchResponse Sample.rejectJson))).
  - vm_compute. left. reflexivity.
  - reflexivity.
  - reflexivity.
Defined.

Lemma strOr_empty (s : string) : Js.strOr s "" = s.
Proof. destruct s; reflexivity. Qed.

Lemma isEmpty_true (s : string) : isEmpty s = true <-> s = "".
Proof. destruct s; cbn; split; congruence. Qed.

Lemma isEmpty_false (s : string) : isEmpty s = false <-> s <> "".
Proof. destruct s; cbn; split; congruence. Qed.

(** C7.  [resolveToEmail] is a function of the category and the
    configuration alone.  For a recognized category it returns the first
    configured slot among the category's overrides (for reviews:
    TO_REVIEWS, then TO_FEEDBACK) and the default; so the result is
    non-null whenever the default mailbox is configured, and it is null
    exactly when the category's overrides and the default are all
    unset. *)
Theorem recipient_resolution_total (t : string) (e : Env) :
  recognized t = true ->
  resolveToEmail t e = firstSet (overrideSlots t e ++ [TO_DEFAULT e])%list /\
  (Js.truthy (TO_DEFAULT e) = true -> resolveToEmail t e <> None) /\
  (resolveToEmail t e = None <->
   allUnset (overrideSlots t e) = true /\ Js.truthy (TO_DEFAULT e) = false).
Proof.
  unfold recognized, resolveToEmail, overrideSlots, allUnset.
  rewrite strOr_empty. cbv zeta.
  destruct (String.eqb (toLowerCase t) "early_offer");
    [|destruct (String.eqb (toLowerCase t) "fitting");
      [|destruct (String.eqb (toLowerCase t) "events");
        [|destruct (String.eqb (toLowerCase t) "reviews");
          [|discriminate]]]];
    intros _; destruct e; cbn [TO_EARLY_OFFER TO_BOOK_FITTING TO_EVENT_FLORAL
                                 TO_REVIEWS TO_FEEDBACK TO_DEFAULT];
    repeat match goal with
      | |- context [Js.truthy ?o] =>
          is_var o; destruct o as [[|? ?]|]; cbn
      end;
    intuition congruence.
Qed.

Lemma recipient_resolution_total_witness :
  resolveToEmail "reviews" Sample.env0
  = firstSet (overrideSlots "reviews" Sample.env0
              ++ [TO_DEFAULT Sample.env0])%list /\
  (Js.truthy (TO_DEFAULT Sample.env0) = true ->
   resolveToEmail "reviews" Sample.env0 <> None) /\
  (resolveToEmail "reviews" Sample.env0 = None <->
   allUnset (overrideSlots "reviews" Sample.env0) = true /\
   Js.truthy (TO_DEFAULT Sample.env0) = false).
Proof.
  apply (recipient_resolution_total "reviews" Sample.env0).
  reflexivity.
Defined.

Lemma parseInt_empty : parseInt "" = None.
Proof. reflexivity. Qed.

(** C3.  For the review category: a rating that [parseInt] reads as an
    integer of at least 4 makes the submission valid whatever the email
    and the challenge token are, absent included; a rating read as 1, 2
    or 3, or not read as an integer at all, leaves email and token
    mandatory (missing email: [missing_email]; email present and token
    missing: [missing_turnstile]), as they are for every other
    category. *)
Theorem high_rating_review_exemption (wj : bool) (f : Fields) :
  (formType f = "reviews" ->
   forall n, parseInt (rating f) = Some n -> 4 <= n ->
             validate wj f = None) /\
  (formType f = "reviews" ->
   (parseInt (rating f) = None \/
    exists n, parseInt (rating f) = Some n /\ 1 <= n <= 3) ->
   emailAndTokenMandatory wj f) /\
  (formType f <> "reviews" -> formType f <> "" ->
   emailAndTokenMandatory wj f).
Proof.
  assert (Hmand : formType f <> "" -> isHighRating f = false ->
                  emailAndTokenMandatory wj f).
  { intros Hne Hhigh. unfold emailAndTokenMandatory, validate.
    apply isEmpty_false in Hne. rewrite Hne, Hhigh. cbn [negb andb].
    split.
    - intros He. apply isEmpty_true in He. now rewrite He.
    - intros He Ht. apply isEmpty_false in He. apply isEmpty_true in Ht.
      now rewrite He, Ht. }
  split; [|split].
  - intros Hft n Hn Hge. unfold validate, isHighRating.
    rewrite Hft, Hn. cbn [isEmpty String.eqb].
    assert (Hr : nonEmpty (rating f) = true).
    { destruct (rating f); [discriminate Hn | reflexivity]. }
    rewrite Hr. apply Z.leb_le in Hge.
    cbn. rewrite Hge. reflexivity.
  - intros Hft Hrating. apply Hmand; [rewrite Hft; discriminate|].
    unfold isHighRating. destruct Hrating as [-> | (n & -> & Hn)].
    + apply andb_false_r.
    + assert ((4 <=? n) = false) as -> by (apply Z.leb_gt; lia).
      apply andb_false_r.
  - intros Hft Hne. apply Hmand; [assumption|].
    unfold isHighRating. apply String.eqb_neq in Hft. now rewrite Hft.
Qed.

Lemma high_rating_review_exemption_witness :
  validate false (extractFields Sample.reviewForm) = None /\
  emailAndTokenMandatory false (extractFields Sample.lowReviewForm) /\
  emailAndTokenMandatory false
    (extractFields [("formType", "fitting"); ("email", "a@x.com")]).
Proof.
  split; [|split].
  - apply (proj1 (high_rating_review_exemption false
                    (extractFields Sample.reviewForm))
                 eq_refl 5); [reflexivity | lia].
  - apply (proj1 (proj2 (high_rating_review_exemption false
                           (extractFields Sample.lowReviewForm)))
                 eq_refl).
    right. exists 2. split; [reflexivity | lia].
  - apply (proj2 (proj2 (high_rating_review_exemption false
             (extractFields [("formType", "fitting");
                             ("email", "a@x.com")])))).
    + vm_compute. discriminate.
    + vm_compute. discriminate.
Defined.

Lemma resolveToEmail_unrecognized (t : string) (e : Env) :
  recognized t = false -> resolveToEmail t e = Js.or (TO_DEFAULT e) None.
Proof.
  unfold recognized, resolveToEmail. rewrite strOr_empty. cbv zeta.
  intros H. apply orb_false_elim in H as [H H4].
  apply orb_false_elim in H as [H H3].
  apply orb_false_elim in H as [H1 H2].
  now rewrite H1, H2, H3, H4.
Qed.

(** C2, as the code has it.  An unrecognized category falls back to the
    default mailbox.  When no default mailbox is configured, the routing
    stage answers with the [unknown_formtype] fault without calling out,
    and the handler dispatches no email for that request; when a default
    mailbox is configured, that mailbox is the recipient. *)
Theorem unrecognized_category_routing
    (wj : bool) (e : Env) (h : Headers) (ip : option string)
    (form : FormData) (net : Network) (log : Log) :
  recognized (formType (extractFields form)) = false ->
  resolveToEmail (formType (extractFields form)) e
  = Js.or (TO_DEFAULT e) None /\
  (Js.truthy (TO_DEFAULT e) = false ->
   routeAndSend wj e h ip (extractFields form) form net log
   = (unknownFormtype wj (formType (extractFields form)), log) /\
   existsb isSend
     (calls (Some (mkContext (Some (mkRequest h (Some form))) (Some e))) net)
   = false).
Proof.
  intros Hrec. set (f := extractFields form) in *.
  pose proof (resolveToEmail_unrecognized _ e Hrec) as Hto.
  split; [exact Hto|]. intros Hdef.
  assert (Hfalse : Js.truthy (resolveToEmail (formType f) e) = false).
  { rewrite Hto. unfold Js.or. rewrite Hdef. reflexivity. }
  split.
  - rewrite routeAndSend_run, Hfalse. reflexivity.
  - rewrite anySend_calls.
    set (ctx := Some (mkContext (Some (mkRequest h (Some form))) (Some e))).
    destruct (onRequestPost_cases ctx)
      as [(r0 & Hr)|(e' & h' & form' & Hctx & Hr)]; rewrite Hr;
      [reflexivity|].
    injection Hctx as <- <- <-. clear Hr.
    rewrite handleForm_run. cbv zeta. fold f.
    destruct (validate _ _); [reflexivity|].
    destruct (nonEmpty _).
    + destruct (verified _); [|reflexivity].
      rewrite routeAndSend_run, Hfalse. reflexivity.
    + rewrite routeAndSend_run, Hfalse. reflexivity.
Qed.

Lemma unrecognized_category_routing_witness :
  resolveToEmail (formType (extractFields Sample.contactForm))
                 Sample.envNoDefault
  = Js.or (TO_DEFAULT Sample.envNoDefault) None /\
  (Js.truthy (TO_DEFAULT Sample.envNoDefault) = false ->
   routeAndSend false Sample.envNoDefault Sample.browserHeaders None
     (extractFields Sample.contactForm) Sample.contactForm
     Sample.netAllOk []
   = (unknownFormtype false (formType (extractFields Sample.contactForm)),
      []) /\
   existsb isSend
     (calls (Some (mkContext
                     (Some (mkRequest Sample.browserHeaders
                              (Some Sample.contactForm)))
                     (Some Sample.envNoDefault))) Sample.netAllOk)
   = false).
Proof.
  apply (unrecognized_category_routing false Sample.envNoDefault
           Sample.browserHeaders None Sample.contactForm
           Sample.netAllOk []).
  reflexivity.
Defined.

(** C2 as stated fails: with a default mailbox configured, a submission
    of the unrecognized category "contact" is dispatched and answered
    with the success redirect. *)
Lemma unrecognized_category_is_dispatched :
  recognized (formType (extractFields Sample.contactForm)) = false /\
  response (Sample.mkCtx Sample.browserHeaders Sample.env0
              Sample.contactForm) Sample.netAllOk = successResponse /\
  existsb isSend
    (calls (Sample.mkCtx Sample.browserHeaders Sample.env0
              Sample.contactForm) Sample.netAllOk) = true.
Proof. vm_compute. repeat split. Qed.

(** C4, as the code has it.  For a submission that validation exempted
    (a high-rating review), verification is skipped when no challenge
    token was submitted: the handler goes straight to routing and makes
    no call to the verification provider.  A token that is present is
    verified like any other, and its rejection ends the request. *)
Theorem exempt_review_challenge
    (wj : bool) (e : Env) (h : Headers) (form : FormData)
    (net : Network) (log : Log) :
  isHighRating (extractFields form) = true ->
  (turnstileToken (extractFields form) = "" ->
   handleForm wj e h form net log
   = routeAndSend wj e h (Js.or (hCfConnectingIp h) None)
       (extractFields form) form net log /\
   existsb isVerify
     (calls (Some (mkContext (Some (mkRequest h (Some form))) (Some e))) net)
   = false) /\
  (turnstileToken (extractFields form) <> "" ->
   let c := verifyCall e (Js.or (hCfConnectingIp h) None)
              (extractFields form) in
   verified (net log c) = false ->
   handleForm wj e h form net log
   = (turnstileFailed wj (details (verifyOutcome (net log c))),
      (log ++ [(c, net log c)])%list)).
Proof.
  intros Hhigh. set (f := extractFields form) in *.
  assert (Hvalid : forall b, validate b f = None).
  { intros b. unfold validate. rewrite Hhigh. cbn [negb andb].
    unfold isHighRating in Hhigh.
    destruct (String.eqb_spec (formType f) "reviews") as [->|];
      [reflexivity | discriminate]. }
  split.
  - intros Htok.
    assert (Hne : nonEmpty (turnstileToken f) = false) by now rewrite Htok.
    split.
    + rewrite handleForm_run. cbv zeta. fold f. now rewrite Hvalid, Hne.
    + rewrite anyVerify_calls.
      set (ctx := Some (mkContext (Some (mkRequest h (Some form))) (Some e))).
      destruct (onRequestPost_cases ctx)
        as [(r0 & Hr)|(e' & h' & form' & Hctx & Hr)]; rewrite Hr;
        [reflexivity|].
      injection Hctx as <- <- <-. clear Hr.
      rewrite handleForm_run. cbv zeta. fold f. rewrite Hvalid, Hne.
      destruct (routeAndSend_log (wantsJson ctx) e h
                  (Js.or (hCfConnectingIp h) None) f form net [])
        as (l & -> & Hl & _).
      exact Hl.
  - intros Htok c Hrej.
    assert (Hne : nonEmpty (turnstileToken f) = true).
    { unfold nonEmpty. apply isEmpty_false in Htok. now rewrite Htok. }
    rewrite handleForm_run. cbv zeta. fold f. fold c.
    now rewrite Hvalid, Hne, Hrej.
Qed.

Lemma exempt_review_challenge_witness :
  (handleForm false Sample.env0 Sample.browserHeaders Sample.reviewForm
     Sample.netAllOk []
   = routeAndSend false Sample.env0 Sample.browserHeaders
       (Js.or (hCfConnectingIp Sample.browserHeaders) None)
       (extractFields Sample.reviewForm) Sample.reviewForm
       Sample.netAllOk [] /\
   existsb isVerify
     (calls (Some (mkContext
                     (Some (mkRequest Sample.browserHeaders
                              (Some Sample.reviewForm)))
                     (Some Sample.env0))) Sample.netAllOk) = false) /\
  fst (handleForm false Sample.env0 Sample.browserHeaders
         Sample.reviewFormWithToken Sample.netVerifyRejects [])
  = turnstileFailed false (Some (JObj [("success", JBool false)])).
Proof.
  split.
  - apply (proj1 (exempt_review_challenge false Sample.env0
                    Sample.browserHeaders Sample.reviewForm
                    Sample.netAllOk [] eq_refl)).
    reflexivity.
  - rewrite (proj2 (exempt_review_challenge false Sample.env0
                      Sample.browserHeaders Sample.reviewFormWithToken
                      Sample.netVerifyRejects [] eq_refl)).
    + reflexivity.
    + vm_compute. discriminate.
    + reflexivity.
Defined.

(** C4 as stated fails: a five-star review that carries a challenge
    token is verified, and the provider's rejection ends the request
    with the [turnstile_failed] response. *)
Lemma exempt_review_with_token_is_verified :
  isHighRating (extractFields Sample.reviewFormWithToken) = true /\
  calls (Sample.mkCtx Sample.browserHeaders Sample.env0
           Sample.reviewFormWithToken) Sample.netVerifyRejects
  = [CallVerify "secret" "tok" (Some "203.0.113.7")] /\
  response (Sample.mkCtx Sample.browserHeaders Sample.env0
              Sample.reviewFormWithToken) Sample.netVerifyRejects
  = turnstileFailed false (Some (JObj [("success", JBool false)])).
Proof. vm_compute. repeat split. Qed.


Lemma orStr_Some_empty (v : string) : Js.orStr (Some v) "" = v.
Proof. destruct v; reflexivity. Qed.








(** C1 on the code: a request that passes every stage and asks for
    [application/json] is answered with the 303 redirect and an empty
    body, as a browser submission is. *)
Theorem success_response_ignores_accept :
  wantsJson (Sample.mkCtx Sample.jsonHeaders Sample.env0
               Sample.earlyOfferForm) = true /\
  response (Sample.mkCtx Sample.jsonHeaders Sample.env0
              Sample.earlyOfferForm) Sample.netAllOk
  = mkResponse 303 [("Location", "/?submitted=success")] BodyNull /\
  response (Sample.mkCtx Sample.jsonHeaders Sample.env0
              Sample.earlyOfferForm) Sample.netAllOk
  = response (Sample.mkCtx Sample.browserHeaders Sample.env0
                Sample.earlyOfferForm) Sample.netAllOk.
Proof. vm_compute. repeat split. Qed.


Ltac generic_html :=
  right; eexists _, _; split; [|reflexivity];
  unfold genericMessages; repeat (first [left; reflexivity | right]).

(** X15.  Every answer given through [respond] on the HTML path is generic:
    with [context.env] present, a request that does not ask for JSON
    gets the success redirect or the page of one of the fixed texts. *)
Lemma html_path_is_generic (ctx : Context) (e : Env) (net : Network) :
  env ctx = Some e ->
  wantsJson (Some ctx) = false ->
  genericResponse (response (Some ctx) net).
Proof.
  intros He Hwj. unfold response, run, onRequestPost.
  rewrite He, Hwj. cbv zeta.
  destruct (0 <? _); [cbn; generic_html|].
  destruct (request ctx) as [[h [form|]]|]; cbn [formData headers];
    try (cbn; generic_html).
  rewrite handleForm_run. cbv zeta.
  assert (Hroute : forall ip lg,
    genericResponse
      (fst (routeAndSend false e h ip (extractFields form) form net lg))).
  { intros ip lg. rewrite routeAndSend_run.
    destruct (negb _); [cbn; generic_html|]. cbv zeta.
    destruct (fetchOk _); [left; reflexivity | cbn; generic_html]. }
  unfold validate.
  destruct (isEmpty (formType _)); [cbn; generic_html|].
  destruct (negb _ && isEmpty (email _)); [cbn; generic_html|].
  destruct (negb _ && isEmpty (turnstileToken _)); [cbn; generic_html|].
  destruct (nonEmpty _); [|apply Hroute].
  destruct (verified _); [apply Hroute | cbn; generic_html].
Qed.

Section CategoryNormalization.

Variables (pre post : FormData) (a b : string).

Lemma FormData_get_other (k : string) :
  k <> "formType" ->
  FormData_get (withFormType pre post a) k
  = FormData_get (withFormType pre post b) k.
Proof.
  intros Hk. unfold withFormType.
  induction pre as [|[k' v'] l IH]; cbn [app FormData_get].
  - apply not_eq_sym in Hk. apply String.eqb_neq in Hk.
    now rewrite Hk.
  - now rewrite IH.
Qed.

Lemma field_other (k : string) :
  k <> "formType" ->
  field (withFormType pre post a) k = field (withFormType pre post b) k.
Proof. intros Hk. unfold field. now rewrite FormData_get_other. Qed.

Hypothesis Hsame : sameUpToCaseAndSpace a b.

Lemma formType_same :
  toLowerCase (field (withFormType pre post a) "formType")
  = toLowerCase (field (withFormType pre post b) "formType").
Proof.
  unfold field, withFormType.
  induction pre as [|[k' v'] l IH]; cbn [app FormData_get].
  - cbn [String.eqb Ascii.eqb Bool.eqb]. rewrite !orStr_Some_empty.
    now apply normalize_same.
  - destruct (String.eqb k' "formType"); [reflexivity | exact IH].
Qed.

Lemma extractFields_same :
  extractFields (withFormType pre post a)
  = extractFields (withFormType pre post b).
Proof.
  unfold extractFields. rewrite formType_same.
  rewrite !(field_other "email"), !(field_other "firstName"),
    !(field_other "lastName"), !(field_other "fullName"),
    !(field_other "name"), !(field_other "phone"),
    !(field_other "message"), !(field_other "cf-turnstile-response"),
    !(field_other "rating"), !(field_other "source") by discriminate.
  reflexivity.
Qed.

Lemma fittingReplyText_same (f : Fields) :
  fittingReplyText f (withFormType pre post a)
  = fittingReplyText f (withFormType pre post b).
Proof.
  unfold fittingReplyText, preferredDates, preferredSlot.
  rewrite !(FormData_get_other "eventType"),
    !(FormData_get_other "preferredDate1"),
    !(FormData_get_other "preferredTime1"),
    !(FormData_get_other "preferredDate2"),
    !(FormData_get_other "preferredTime2"),
    !(FormData_get_other "preferredDate3"),
    !(FormData_get_other "preferredTime3") by discriminate.
  reflexivity.
Qed.

Lemma handleForm_same wj e h net log :
  handleForm wj e h (withFormType pre post a) net log
  = handleForm wj e h (withFormType pre post b) net log.
Proof.
  unfold handleForm. rewrite extractFields_same.
  unfold routeAndSend, autoReplies. rewrite fittingReplyText_same.
  reflexivity.
Qed.

End CategoryNormalization.

(** C10.  The handler reads the category once, trimmed and lower-cased,
    and every later comparison uses that value.  Two submissions that
    differ only in a [formType] value, equal up to letter case and
    surrounding whitespace, yield the same extracted fields, the same
    validation outcome, the same recipient, the same subject line and
    the same auto-replies, and the handler runs alike on them: the same
    response and the same outbound calls. *)
Theorem category_case_and_space_invariant
    (pre post : FormData) (a b : string) (h : Headers)
    (envO : option Env) (wj : bool) (net : Network) :
  sameUpToCaseAndSpace a b ->
  let formA := withFormType pre post a in
  let formB := withFormType pre post b in
  extractFields formA = extractFields formB /\
  validate wj (extractFields formA) = validate wj (extractFields formB) /\
  (forall e, resolveToEmail (formType (extractFields formA)) e
             = resolveToEmail (formType (extractFields formB)) e) /\
  subjectOf (extractFields formA) = subjectOf (extractFields formB) /\
  (forall e log, autoReplies e (extractFields formA) formA net log
                 = autoReplies e (extractFields formB) formB net log) /\
  run (onRequestPost
         (Some (mkContext (Some (mkRequest h (Some formA))) envO))) net
  = run (onRequestPost
           (Some (mkContext (Some (mkRequest h (Some formB))) envO))) net.
Proof.
  intros Hsame formA formB.
  pose proof (extractFields_same pre post a b Hsame) as Hf.
  fold formA formB in Hf.
  split; [exact Hf|]. rewrite Hf.
  split; [reflexivity|]. split; [reflexivity|]. split; [reflexivity|].
  split.
  - intros e log. unfold autoReplies, formA, formB.
    now rewrite (fittingReplyText_same pre post a b).
  - unfold run, onRequestPost. cbn [env request formData headers].
    destruct envO as [e|]; [|reflexivity].
    destruct (0 <? _); [reflexivity|].
    apply (handleForm_same pre post a b Hsame).
Qed.

Lemma category_case_and_space_invariant_witness :
  extractFields [("formType", "  Reviews "); ("rating", "5")]
  = extractFields [("formType", "reviews"); ("rating", "5")] /\
  run (onRequestPost
         (Some (mkContext
                  (Some (mkRequest Sample.browserHeaders
                           (Some [("formType", "  Reviews ");
                                  ("rating", "5")])))
                  (Some Sample.env0)))) Sample.netAllOk
  = run (onRequestPost
           (Some (mkContext
                    (Some (mkRequest Sample.browserHeaders
                             (Some [("formType", "reviews");
                                    ("rating", "5")])))
                    (Some Sample.env0)))) Sample.netAllOk.
Proof.
  assert (Hsame : sameUpToCaseAndSpace "  Reviews " "reviews").
  { exists "  ", "Reviews", " ", "", "reviews", "".
    repeat split; reflexivity. }
  pose proof (category_case_and_space_invariant
                [] [("rating", "5")] "  Reviews " "reviews"
                Sample.browserHeaders (Some Sample.env0) false
                Sample.netAllOk Hsame) as H.
  cbv zeta in H. unfold withFormType in H. cbn [app] in H.
  split; [exact (proj1 H) | exact (proj2 (proj2 (proj2 (proj2 (proj2 H)))))].
Defined.

(* ------------------------------------------------------------------ *)
(** ** The operations on concrete inputs *)

Example parseInt_five : parseInt "5" = Some 5.
Proof. reflexivity. Qed.

Example parseInt_five_stars : parseInt "5 stars" = Some 5.
Proof. reflexivity. Qed.

Example parseInt_fraction : parseInt "4.9" = Some 4.
Proof. reflexivity. Qed.

Example parseInt_hex : parseInt "0x1f" = Some 31.
Proof. reflexivity. Qed.

Example parseInt_negative : parseInt "-7" = Some (-7).
Proof. reflexivity. Qed.

Example parseInt_word : parseInt "great" = None.
Proof. reflexivity. Qed.

Example normalize_category : toLowerCase (trim "  Reviews ") = "reviews".
Proof. reflexivity. Qed.

Example escapeHtml_markup :
  escapeHtml "<b>Tom & Ana's</b>" = "&lt;b&gt;Tom &amp; Ana&#039;s&lt;/b&gt;".
Proof. reflexivity. Qed.

Example review_reaches_dispatch :
  calls (Sample.mkCtx Sample.browserHeaders Sample.env0 Sample.reviewForm)
        Sample.netAllOk
  = [primaryCall Sample.env0 Sample.browserHeaders (Some "203.0.113.7")
       (extractFields Sample.reviewForm)].
Proof. reflexivity. Qed.

Example low_review_needs_email :
  response (Sample.mkCtx Sample.browserHeaders Sample.env0
              Sample.lowReviewForm) Sample.netAllOk
  = missingEmail false.
Proof. reflexivity. Qed.

(* ------------------------------------------------------------------ *)
(** ** Further properties: [escapeHtml] *)

Lemma append_assoc (s t u : string) : (s ++ t) ++ u = s ++ (t ++ u).
Proof.
  induction s as [|a r IH]; [reflexivity|]. cbn [append]. now rewrite IH.
Qed.

Lemma replaceAll_app (c : ascii) (rep s t : string) :
  replaceAll c rep (s ++ t) = replaceAll c rep s ++ replaceAll c rep t.
Proof.
  induction s as [|a r IH]; [reflexivity|]. cbn [append replaceAll].
  rewrite IH. destruct (Ascii.eqb a c); [|reflexivity].
  now rewrite append_assoc.
Qed.

Lemma escapeHtml_cons (a : ascii) (r : string) :
  escapeHtml (String a r) = escapeChar a ++ escapeHtml r.
Proof.
  unfold escapeHtml.
  change (String a r) with (String a "" ++ r).
  rewrite !replaceAll_app. f_equal.
  destruct a as [[] [] [] [] [] [] [] []]; reflexivity.
Qed.

Lemma escapeHtml_escapeOnePass (s : string) :
  escapeHtml s = escapeOnePass s.
Proof.
  induction s as [|a r IH]; [reflexivity|].
  rewrite escapeHtml_cons, IH. reflexivity.
Qed.

(** X1.  The five replacements of [escapeHtml], applied one after the
    other, amount to one pass that writes each character's entity: the
    ampersands of the entities written are not escaped again; and
    escaping distributes over concatenation. *)
Theorem escapeHtml_one_pass (s t : string) :
  escapeHtml s = escapeOnePass s /\
  escapeHtml (s ++ t) = escapeHtml s ++ escapeHtml t.
Proof.
  split; [apply escapeHtml_escapeOnePass|].
  unfold escapeHtml. now rewrite !replaceAll_app.
Qed.

Lemma noneOf_app (cs : list ascii) (s t : string) :
  noneOf cs (s ++ t) = noneOf cs s && noneOf cs t.
Proof.
  induction s as [|a r IH]; [reflexivity|]. cbn [append noneOf].
  now rewrite IH, andb_assoc.
Qed.

Lemma noneOf_escapeChar (a : ascii) : noneOf markupChars (escapeChar a) = true.
Proof. destruct a as [[] [] [] [] [] [] [] []]; reflexivity. Qed.

(** X2.  Whatever the text, its escaped form holds no angle bracket and
    no quote character, so it cannot open a tag or close an attribute
    in the page. *)
Theorem escapeHtml_no_markup (s : string) :
  noneOf markupChars (escapeHtml s) = true.
Proof.
  rewrite escapeHtml_escapeOnePass.
  induction s as [|a r IH]; [reflexivity|].
  cbn [escapeOnePass]. now rewrite noneOf_app, noneOf_escapeChar, IH.
Qed.

(** X3.  A text without markup characters and without ampersand is left
    as it is. *)
Theorem escapeHtml_plain (s : string) :
  noneOf ("&"%char :: markupChars) s = true -> escapeHtml s = s.
Proof.
  rewrite escapeHtml_escapeOnePass.
  induction s as [|a r IH]; [reflexivity|].
  cbn [noneOf escapeOnePass]. intros H.
  apply andb_prop in H as [Ha Hr]. rewrite (IH Hr).
  revert Ha. unfold escapeChar, markupChars. cbn [existsb].
  destruct (Ascii.eqb a "&"); [discriminate|].
  destruct (Ascii.eqb a "<"); [discriminate|].
  destruct (Ascii.eqb a ">"); [discriminate|].
  destruct (Ascii.eqb a (ascii_of_nat 34)); [discriminate|].
  destruct (Ascii.eqb a "'"); [discriminate|]. reflexivity.
Qed.

Lemma escapeHtml_plain_witness :
  escapeHtml "Please enter an email." = "Please enter an email.".
Proof. apply escapeHtml_plain. reflexivity. Defined.

(* ------------------------------------------------------------------ *)
(** ** Further properties: the stages of [onRequestPost] *)

Lemma missing_filter (e : Env) :
  filter (fun k => negb (Js.truthy (envGet e k))) required = missingOf e.
Proof.
  unfold required, missingOf. cbn [filter envGet String.eqb Ascii.eqb Bool.eqb].
  destruct (Js.truthy (TURNSTILE_SECRET_KEY e)),
           (Js.truthy (RESEND_API_KEY e)),
           (Js.truthy (RESEND_FROM_EMAIL e)); reflexivity.
Qed.

Lemma missingOf_complete (e : Env) :
  (0 <? Z.of_nat (List.length (missingOf e))) = negb (envComplete e).
Proof.
  unfold missingOf, envComplete.
  destruct (Js.truthy (TURNSTILE_SECRET_KEY e)),
           (Js.truthy (RESEND_API_KEY e)),
           (Js.truthy (RESEND_FROM_EMAIL e)); reflexivity.
Qed.

(** lead.ts 34-56 as one equation, for a context that has its [env]. *)
Lemma onRequestPost_run (ctx : Context) (e : Env) (net : Network) :
  env ctx = Some e ->
  run (onRequestPost (Some ctx)) net =
  if envComplete e then
    match request ctx with
    | Some req =>
        match formData req with
        | Some form =>
            handleForm (wantsJson (Some ctx)) e (headers req) form net []
        | None => (invalidFormData (wantsJson (Some ctx)), [])
        end
    | None => (invalidFormData (wantsJson (Some ctx)), [])
    end
  else (missingEnv (wantsJson (Some ctx)) (missingOf e), []).
Proof.
  intros He. unfold run, onRequestPost. rewrite He. cbv zeta.
  rewrite missing_filter, missingOf_complete.
  destruct (envComplete e); cbn [negb]; [|reflexivity].
  destruct (request ctx) as [[h [form|]]|]; reflexivity.
Qed.

Lemma autoReply_exact e f subj txt net log :
  autoReply e f subj txt net log =
  let c := emailCall (asString (RESEND_API_KEY e))
             (asString (RESEND_FROM_EMAIL e)) (RESEND_FROM_NAME e)
             (email f) subj txt true in
  (tt, (log ++ [(c, net log c)])%list).
Proof.
  unfold autoReply, bind. rewrite sendWithResendSafe_run.
  cbv beta iota zeta.
  match goal with |- context [negb ?b] => destruct (negb b) end;
    reflexivity.
Qed.

(** lead.ts 155-311 as one equation: the three tests exclude one
    another, so at most one courtesy message is sent. *)
Lemma autoReplies_exact e f form net log :
  autoReplies e f form net log =
  if autoReplyExpected f then
    (tt, (log ++ [(autoReplyCall e f form,
                   net log (autoReplyCall e f form))])%list)
  else (tt, log).
Proof.
  unfold autoReplies, autoReplyExpected, autoReplyCall, autoReplySubject,
    autoReplyText, bind.
  destruct (String.eqb_spec (formType f) "early_offer") as [E1|E1].
  - assert (E2 : String.eqb (formType f) "fitting" = false)
      by (rewrite E1; reflexivity).
    assert (E3 : String.eqb (formType f) "events" = false)
      by (rewrite E1; reflexivity).
    rewrite E2, E3, autoReply_exact. reflexivity.
  - destruct (String.eqb_spec (formType f) "fitting") as [E2|E2].
    + assert (E3 : String.eqb (formType f) "events" = false)
        by (rewrite E2; reflexivity).
      rewrite E3. cbn [ret]. rewrite autoReply_exact. reflexivity.
    + destruct (String.eqb (formType f) "events").
      * cbn [ret orb]. rewrite autoReply_exact. reflexivity.
      * reflexivity.
Qed.

Lemma callKind_verifyCall e ip f : callKind (verifyCall e ip f) = 0%nat.
Proof. reflexivity. Qed.

Lemma callKind_primaryCall e h ip f : callKind (primaryCall e h ip f) = 1%nat.
Proof. reflexivity. Qed.

Lemma callKind_autoReplyCall e f form :
  callKind (autoReplyCall e f form) = 2%nat.
Proof. reflexivity. Qed.

Lemma calls_run (context : option Context) (net : Network) :
  calls context net = map fst (snd (run (onRequestPost context) net)).
Proof. reflexivity. Qed.

Lemma response_run (context : option Context) (net : Network) :
  response context net = fst (run (onRequestPost context) net).
Proof. reflexivity. Qed.

Lemma validate_none_gate (wj : bool) (f : Fields) :
  validate wj f = None ->
  turnstileToken f = "" -> isHighRating f = true.
Proof.
  unfold validate. intros Hv Ht.
  destruct (isEmpty (formType f)); [discriminate|].
  destruct (isHighRating f); [reflexivity|]. cbn [negb andb] in Hv.
  destruct (isEmpty (email f)); [discriminate|].
  rewrite Ht in Hv. discriminate.
Qed.

(** Routing and dispatch, from a log [pre] left by the gate. *)
Lemma routeAndSend_terminal (context : option Context) (net : Network)
    (e : Env) (req : Request) (form : FormData) (pre : Log) :
  envOf context = Some e -> envComplete e = true ->
  requestOf context = Some req -> formData req = Some form ->
  validate (wantsJson context) (extractFields form) = None ->
  Gate e (ipOf (headers req)) (extractFields form) net pre ->
  Terminal context net
    (fst (routeAndSend (wantsJson context) e (headers req)
            (ipOf (headers req)) (extractFields form) form net pre))
    (snd (routeAndSend (wantsJson context) e (headers req)
            (ipOf (headers req)) (extractFields form) form net pre)).
Proof.
  intros He Hc Hreq Hform Hv Hgate. rewrite routeAndSend_run.
  destruct (Js.truthy (resolveToEmail _ e)) eqn:Hto; cbn [negb].
  - cbv zeta. destruct (fetchOk _) eqn:Hok.
    + rewrite autoReplies_exact. cbn [fst].
      pose proof (T_Completed context net e req form pre
                    He Hc Hreq Hform Hv Hgate Hto Hok) as HT.
      cbv zeta in HT.
      destruct (autoReplyExpected (extractFields form)); cbn [snd];
        [exact HT|].
      now rewrite app_nil_r in HT.
    + exact (T_DispatchFailed context net e req form pre
               He Hc Hreq Hform Hv Hgate Hto Hok).
  - exact (T_Unroutable context net e req form pre
             He Hc Hreq Hform Hv Hgate Hto).
Qed.

(** The response and the outbound calls of [onRequestPost] are those of
    one terminal state. *)
Lemma onRequestPost_terminal (context : option Context) (net : Network) :
  Terminal context net
    (fst (run (onRequestPost context) net))
    (snd (run (onRequestPost context) net)).
Proof.
  destruct context as [ctx|];
    [|exact (T_Unexpected None net "request" eq_refl)].
  destruct (env ctx) as [e|] eqn:He;
    [|unfold run, onRequestPost; rewrite He;
      exact (T_Unexpected (Some ctx) net "TURNSTILE_SECRET_KEY" He)].
  rewrite (onRequestPost_run ctx e net He).
  destruct (envComplete e) eqn:Hc;
    [|exact (T_MissingEnv (Some ctx) net e He Hc)].
  destruct (request ctx) as [req|] eqn:Hreq.
  2:{ apply (T_MalformedBody (Some ctx) net e He Hc).
      unfold formOf, requestOf. now rewrite Hreq. }
  destruct (formData req) as [form|] eqn:Hform.
  2:{ apply (T_MalformedBody (Some ctx) net e He Hc).
      unfold formOf, requestOf. now rewrite Hreq. }
  assert (HformOf : formOf (Some ctx) = Some form).
  { unfold formOf, requestOf. now rewrite Hreq. }
  rewrite handleForm_run. cbv zeta. fold (ipOf (headers req)).
  destruct (validate _ _) as [r|] eqn:Hv.
  - exact (T_Invalid (Some ctx) net e form r He Hc HformOf Hv).
  - destruct (nonEmpty _) eqn:Htok.
    + assert (Hne : turnstileToken (extractFields form) <> "").
      { apply isEmpty_false. unfold nonEmpty in Htok.
        now destruct (isEmpty _). }
      destruct (verified _) eqn:Hver.
      * apply (routeAndSend_terminal (Some ctx) net e req form _
                 He Hc Hreq Hform Hv).
        now apply GateVerified.
      * exact (T_ChallengeRejected (Some ctx) net e req form
                 He Hc Hreq Hform Hv Hne Hver).
    + assert (Hemp : turnstileToken (extractFields form) = "").
      { apply isEmpty_true. unfold nonEmpty in Htok.
        now destruct (isEmpty _). }
      apply (routeAndSend_terminal (Some ctx) net e req form []
               He Hc Hreq Hform Hv).
      apply GateExempt; [exact Hemp|].
      exact (validate_none_gate _ _ Hv Hemp).
Qed.

(** X4.  Every request ends in one of eight terminal states: the
    response and the outbound calls of [onRequestPost] are those of an
    unexpected exception, a missing variable, an undecodable body, an
    invalid submission, a rejected challenge, an unroutable category, a
    failed dispatch or a completed submission, each reached under the
    conditions of its constructor. *)
Theorem handler_terminal_states (context : option Context) (net : Network) :
  Terminal context net (response context net)
    (snd (run (onRequestPost context) net)).
Proof. apply onRequestPost_terminal. Qed.

Lemma validate_cases (wj : bool) (f : Fields) (r : Response) :
  validate wj f = Some r ->
  r = missingFormtype wj \/ r = missingEmail wj \/ r = missingTurnstile wj.
Proof.
  unfold validate.
  destruct (isEmpty (formType f));
    [intros H; injection H as <-; now left|].
  destruct (negb _ && isEmpty (email f));
    [intros H; injection H as <-; right; now left|].
  destruct (negb _ && isEmpty (turnstileToken f));
    [intros H; injection H as <-; right; now right | discriminate].
Qed.

Lemma status_respond (wj : bool) (st : Z) (p : JsValue) (m : string) :
  status (respond wj st p m) = st.
Proof. destruct wj; reflexivity. Qed.

Lemma status_validate (wj : bool) (f : Fields) (r : Response) :
  validate wj f = Some r -> status r = 400.
Proof.
  intros H. destruct (validate_cases wj f r H) as [-> | [-> | ->]];
    apply status_respond.
Qed.

(** X5.  The handler answers with one of four statuses: 303 for a
    completed submission, 400 for a fault of the caller, 500 for a
    missing variable or an unexpected exception, 502 for a failed
    dispatch. *)
Theorem response_status_codes (context : option Context) (net : Network) :
  In (status (response context net)) statusCodes.
Proof.
  unfold response.
  destruct (onRequestPost_terminal context net);
    unfold statusCodes, missingEnv, invalidFormData, turnstileFailed,
      unknownFormtype, resendFailed;
    rewrite ?status_respond; cbn; try tauto.
  match goal with H : validate _ _ = Some _ |- _ =>
    rewrite (status_validate _ _ _ H) end.
  tauto.
Qed.

Lemma context_with_env (context : option Context) (e : Env) :
  envOf context = Some e ->
  exists ctx, context = Some ctx /\ env ctx = Some e.
Proof.
  destruct context as [ctx|]; [|discriminate].
  intros H. now exists ctx.
Qed.

(** X6.  When a required variable (TURNSTILE_SECRET_KEY, RESEND_API_KEY,
    RESEND_FROM_EMAIL) is unset or empty, the handler answers with the
    [missing_env] fault, which names exactly the variables that are
    missing, and makes no outbound call. *)
Theorem missing_env_short_circuits
    (context : option Context) (e : Env) (net : Network) :
  envOf context = Some e -> envComplete e = false ->
  response context net = missingEnv (wantsJson context) (missingOf e) /\
  calls context net = [] /\
  missingOf e <> [] /\
  (forall k, In k (missingOf e) <->
             In k required /\ Js.truthy (envGet e k) = false).
Proof.
  intros He Hc. destruct (context_with_env _ _ He) as (ctx & -> & Hctx).
  unfold response, calls. rewrite (onRequestPost_run ctx e net Hctx), Hc.
  repeat split.
  - intros Hnil. pose proof (missingOf_complete e) as H.
    rewrite Hnil, Hc in H. discriminate.
  - rewrite <- missing_filter in H. apply filter_In in H. tauto.
  - rewrite <- missing_filter in H. apply filter_In in H.
    now apply negb_true_iff.
  - intros [Hin Hk]. rewrite <- missing_filter. apply filter_In.
    split; [exact Hin | now apply negb_true_iff].
Qed.

Lemma missing_env_short_circuits_witness :
  response (Sample.mkCtx Sample.browserHeaders
              (mkEnv None (Some "re_key") (Some "") None None None None
                     None None None) Sample.earlyOfferForm)
           Sample.netAllOk
  = missingEnv false ["TURNSTILE_SECRET_KEY"; "RESEND_FROM_EMAIL"] /\
  calls (Sample.mkCtx Sample.browserHeaders
           (mkEnv None (Some "re_key") (Some "") None None None None
                  None None None) Sample.earlyOfferForm)
        Sample.netAllOk = [].
Proof.
  pose proof (missing_env_short_circuits
                (Sample.mkCtx Sample.browserHeaders
                   (mkEnv None (Some "re_key") (Some "") None None None
                          None None None None) Sample.earlyOfferForm)
                (mkEnv None (Some "re_key") (Some "") None None None
                       None None None None)
                Sample.netAllOk eq_refl eq_refl) as (H1 & H2 & _).
  split; [exact H1 | exact H2].
Defined.

(** X7.  With the configuration complete, a request whose body cannot
    be decoded as form data (or that has no request object) is answered
    with the [invalid_form_data] fault, status 400, before any outbound
    call. *)
Theorem undecodable_body_rejected
    (context : option Context) (e : Env) (net : Network) :
  envOf context = Some e -> envComplete e = true ->
  formOf context = None ->
  response context net = invalidFormData (wantsJson context) /\
  status (response context net) = 400 /\
  calls context net = [].
Proof.
  intros He Hc Hform.
  destruct (context_with_env _ _ He) as (ctx & -> & Hctx).
  unfold response, calls. rewrite (onRequestPost_run ctx e net Hctx), Hc.
  unfold formOf, requestOf in Hform.
  destruct (request ctx) as [req|].
  - rewrite Hform. repeat split. apply status_respond.
  - repeat split. apply status_respond.
Qed.

Lemma undecodable_body_rejected_witness :
  response (Some (mkContext (Some (mkRequest Sample.jsonHeaders None))
                            (Some Sample.env0))) Sample.netAllOk
  = invalidFormData true /\
  status (response (Some (mkContext
                            (Some (mkRequest Sample.jsonHeaders None))
                            (Some Sample.env0))) Sample.netAllOk) = 400 /\
  calls (Some (mkContext (Some (mkRequest Sample.jsonHeaders None))
                         (Some Sample.env0))) Sample.netAllOk = [].
Proof.
  apply (undecodable_body_rejected
           (Some (mkContext (Some (mkRequest Sample.jsonHeaders None))
                            (Some Sample.env0)))
           Sample.env0 Sample.netAllOk); reflexivity.
Defined.

(** X8.  A submission that is not a high-rating review and lacks its
    email or its challenge token is refused with status 400 before any
    outbound call: neither the verification provider nor the email
    provider is contacted. *)
Theorem incomplete_submission_makes_no_call
    (context : option Context) (e : Env) (form : FormData) (net : Network) :
  envOf context = Some e -> envComplete e = true ->
  formOf context = Some form ->
  isHighRating (extractFields form) = false ->
  email (extractFields form) = "" \/
  turnstileToken (extractFields form) = "" ->
  status (response context net) = 400 /\ calls context net = [].
Proof.
  intros He Hc Hform Hhigh Hmiss.
  destruct (context_with_env _ _ He) as (ctx & -> & Hctx).
  unfold response, calls. rewrite (onRequestPost_run ctx e net Hctx), Hc.
  unfold formOf, requestOf in Hform.
  destruct (request ctx) as [req|]; [|discriminate]. rewrite Hform.
  rewrite handleForm_run. cbv zeta.
  destruct (validate _ _) as [r|] eqn:Hv.
  - split; [exact (status_validate _ _ _ Hv) | reflexivity].
  - exfalso. revert Hv. unfold validate. rewrite Hhigh. cbn [negb andb].
    destruct (isEmpty (formType _)); [discriminate|].
    destruct Hmiss as [-> | ->]; cbn [isEmpty]; [discriminate|].
    destruct (isEmpty (email _)); discriminate.
Qed.

Lemma incomplete_submission_makes_no_call_witness :
  status (response (Sample.mkCtx Sample.browserHeaders Sample.env0
                      Sample.lowReviewForm) Sample.netAllOk) = 400 /\
  calls (Sample.mkCtx Sample.browserHeaders Sample.env0
           Sample.lowReviewForm) Sample.netAllOk = [].
Proof.
  apply (incomplete_submission_makes_no_call
           (Sample.mkCtx Sample.browserHeaders Sample.env0
              Sample.lowReviewForm)
           Sample.env0 Sample.lowReviewForm Sample.netAllOk);
    try reflexivity.
  left. reflexivity.
Defined.

Lemma Gate_cases e ip f net pre :
  Gate e ip f net pre ->
  (pre = [] /\ turnstileToken f = "" /\ isHighRating f = true) \/
  (pre = [(verifyCall e ip f, net [] (verifyCall e ip f))] /\
   verified (net [] (verifyCall e ip f)) = true).
Proof. intros [Ht Hh | Ht Hv]; [left | right]; auto. Qed.

Lemma submission_formOf (context : option Context) (form : FormData) :
  formOf context = Some form ->
  submission context = Some (extractFields form).
Proof.
  unfold formOf, requestOf, submission.
  destruct context as [ctx|]; [|discriminate].
  destruct (request ctx) as [req|]; [|discriminate].
  now intros ->.
Qed.

Lemma formOf_request (context : option Context) (req : Request)
    (form : FormData) :
  requestOf context = Some req -> formData req = Some form ->
  formOf context = Some form.
Proof. unfold formOf. now intros -> ->. Qed.

Ltac gate_cases :=
  match goal with
  | H : Gate _ _ _ _ _ |- _ =>
      destruct (Gate_cases _ _ _ _ _ H) as [(? & ? & ?)|(? & ?)]; subst
  end.

Ltac submitted :=
  apply submission_formOf; eapply formOf_request; eassumption.

(** X9.  No email leaves the handler ungated: whenever a request makes a
    call to the email provider, either its first outbound call was a
    verification that the provider accepted, or the submission is a
    high-rating review that carries no challenge token. *)
Theorem dispatch_requires_gate (context : option Context) (net : Network) :
  existsb isSend (calls context net) = true ->
  gatePassed (snd (run (onRequestPost context) net)) = true \/
  exists f, submission context = Some f /\
            isHighRating f = true /\ turnstileToken f = "".
Proof.
  rewrite anySend_calls.
  destruct (onRequestPost_terminal context net); cbv zeta in *;
    try gate_cases; intros Hsend; try discriminate Hsend;
    try (right; eexists; repeat split; [submitted | assumption..]);
    left; cbn;
    match goal with H : verified _ = true |- _ => now rewrite H end.
Qed.

Lemma dispatch_requires_gate_witness :
  gatePassed (snd (run (onRequestPost
                          (Sample.mkCtx Sample.browserHeaders Sample.env0
                             Sample.earlyOfferForm)) Sample.netAllOk))
  = true \/
  exists f, submission (Sample.mkCtx Sample.browserHeaders Sample.env0
                          Sample.earlyOfferForm) = Some f /\
            isHighRating f = true /\ turnstileToken f = "".
Proof.
  apply (dispatch_requires_gate
           (Sample.mkCtx Sample.browserHeaders Sample.env0
              Sample.earlyOfferForm) Sample.netAllOk).
  reflexivity.
Defined.

(** X10.  One request makes at most three outbound calls, in a fixed
    order: at most one verification, which comes first; then at most
    one primary notification; then at most one courtesy message, which
    is sent only after a primary notification. *)
Theorem call_sequence_shape (context : option Context) (net : Network) :
  In (map callKind (calls context net)) callShapes.
Proof.
  rewrite calls_run.
  destruct (onRequestPost_terminal context net); cbv zeta in *;
    try gate_cases;
    try match goal with
        | |- context [autoReplyExpected ?f] => destruct (autoReplyExpected f)
        end;
    cbn; tauto.
Qed.

Ltac not_success H :=
  exfalso; apply (f_equal status) in H;
  unfold missingEnv, invalidFormData, turnstileFailed, unknownFormtype,
    resendFailed in H;
  rewrite ?status_respond in H;
  try match goal with Hv : validate _ _ = Some _ |- _ =>
        rewrite (status_validate _ _ _ Hv) in H end;
  discriminate H.

(** X11.  A primary notification that the email provider does not
    accept ends the request: the response is the [resend_failed] fault
    with status 502, and no courtesy message is sent. *)
Theorem failed_dispatch_reports_502
    (context : option Context) (net : Network)
    (c : OutCall) (r : FetchResult) :
  In (c, r) (snd (run (onRequestPost context) net)) ->
  isPrimary c = true -> fetchOk r = false ->
  (exists d, response context net = resendFailed (wantsJson context) d) /\
  status (response context net) = 502 /\
  anyAutoReply (snd (run (onRequestPost context) net)) = false.
Proof.
  unfold response.
  destruct (onRequestPost_terminal context net); cbv zeta in *;
    try gate_cases;
    try match goal with
        | |- context [autoReplyExpected ?f] => destruct (autoReplyExpected f)
        end;
    cbn [app In]; intros Hin Hc Hr;
    repeat (destruct Hin as [Hin|Hin];
            [injection Hin as <- <-; try discriminate Hc; try congruence|]);
    try contradiction;
    (split; [eexists; reflexivity|]; split;
     [apply status_respond | reflexivity]).
Qed.

Lemma failed_dispatch_reports_502_witness :
  (exists d,
      response (Sample.mkCtx Sample.browserHeaders Sample.env0
                  Sample.earlyOfferForm)
               (fun _ c => if isVerify c then FetchResponse Sample.okJson
                           else FetchResponse Sample.error500)
      = resendFailed false d) /\
  status (response (Sample.mkCtx Sample.browserHeaders Sample.env0
                      Sample.earlyOfferForm)
                   (fun _ c => if isVerify c then FetchResponse Sample.okJson
                               else FetchResponse Sample.error500)) = 502 /\
  anyAutoReply
    (snd (run (onRequestPost
                 (Sample.mkCtx Sample.browserHeaders Sample.env0
                    Sample.earlyOfferForm))
              (fun _ c => if isVerify c then FetchResponse Sample.okJson
                          else FetchResponse Sample.error500))) = false.
Proof.
  apply (failed_dispatch_reports_502
           (Sample.mkCtx Sample.browserHeaders Sample.env0
              Sample.earlyOfferForm)
           (fun _ c => if isVerify c then FetchResponse Sample.okJson
                       else FetchResponse Sample.error500)
           (primaryCall Sample.env0 Sample.browserHeaders
              (Some "203.0.113.7") (extractFields Sample.earlyOfferForm))
           (FetchResponse Sample.error500)).
  - vm_compute. right. left. reflexivity.
  - reflexivity.
  - reflexivity.
Defined.

(** X12.  The success response is returned exactly when the primary
    notification was sent and accepted by the email provider. *)
Theorem success_iff_primary_accepted
    (context : option Context) (net : Network) :
  response context net = successResponse <->
  primarySent (snd (run (onRequestPost context) net)) = true.
Proof.
  unfold response.
  destruct (onRequestPost_terminal context net); cbv zeta in *;
    try gate_cases;
    (split; [intros Hs; try (not_success Hs) | intros Hp]);
    try discriminate Hp; try reflexivity.
  1,2: cbn in Hp;
    match goal with H : fetchOk _ = false |- _ => rewrite H in Hp end;
    discriminate Hp.
  all: rewrite primarySent_app; cbn;
    match goal with H : fetchOk _ = true |- _ => now rewrite H end.
Qed.

Lemma success_iff_primary_accepted_witness :
  primarySent
    (snd (run (onRequestPost
                 (Sample.mkCtx Sample.browserHeaders Sample.env0
                    Sample.reviewForm)) Sample.netAllOk)) = true.
Proof.
  apply (proj1 (success_iff_primary_accepted
                  (Sample.mkCtx Sample.browserHeaders Sample.env0
                     Sample.reviewForm) Sample.netAllOk)).
  reflexivity.
Defined.

(** X13.  After a completed submission the courtesy messages sent are
    determined by the category: one message, addressed to the
    submitter's email and carrying the unsubscribe headers, for
    early_offer, fitting and events; none for any other category. *)
Theorem courtesy_message_selection
    (context : option Context) (e : Env) (form : FormData) (net : Network) :
  envOf context = Some e -> formOf context = Some form ->
  response context net = successResponse ->
  filter isAutoReply (calls context net)
  = (if autoReplyExpected (extractFields form)
     then [autoReplyCall e (extractFields form) form] else []) /\
  addressees (autoReplyCall e (extractFields form) form)
  = [email (extractFields form)] /\
  isAutoReply (autoReplyCall e (extractFields form) form) = true.
Proof.
  intros He Hform. unfold response. rewrite calls_run.
  destruct (onRequestPost_terminal context net); cbv zeta in *;
    intros Hs; try (not_success Hs).
  assert (e0 = e) as -> by congruence.
  assert (form0 = form) as ->.
  { unfold formOf in Hform.
    match goal with H : requestOf _ = Some _ |- _ => rewrite H in Hform end.
    congruence. }
  split; [|split; reflexivity].
  gate_cases; destruct (autoReplyExpected _); reflexivity.
Qed.

Lemma courtesy_message_selection_witness :
  filter isAutoReply
    (calls (Sample.mkCtx Sample.browserHeaders Sample.env0
              Sample.earlyOfferForm) Sample.netAllOk)
  = (if autoReplyExpected (extractFields Sample.earlyOfferForm)
     then [autoReplyCall Sample.env0
             (extractFields Sample.earlyOfferForm) Sample.earlyOfferForm]
     else []) /\
  addressees (autoReplyCall Sample.env0
                (extractFields Sample.earlyOfferForm) Sample.earlyOfferForm)
  = [email (extractFields Sample.earlyOfferForm)] /\
  isAutoReply (autoReplyCall Sample.env0
                 (extractFields Sample.earlyOfferForm)
                 Sample.earlyOfferForm) = true.
Proof.
  apply (courtesy_message_selection
           (Sample.mkCtx Sample.browserHeaders Sample.env0
              Sample.earlyOfferForm)
           Sample.env0 Sample.earlyOfferForm Sample.netAllOk);
    reflexivity.
Defined.

Ltac json_fault :=
  right; unfold jsonFault; eexists _, _;
  split; [|split; reflexivity];
  unfold errorCodes; repeat (first [left; reflexivity | right]).

(** X14.  A caller that asks for JSON gets, for every fault, a JSON
    object [{ok: false, error: code, ...}] whose code is one of the nine
    fixed codes, served as [application/json]; the only other response
    is the success redirect. *)
Theorem json_path_stable_codes (context : option Context) (net : Network) :
  wantsJson context = true ->
  response context net = successResponse \/
  jsonFault (response context net).
Proof.
  intros Hwj. unfold response.
  destruct (onRequestPost_terminal context net); cbv zeta in *;
    unfold missingEnv, invalidFormData, turnstileFailed, unknownFormtype,
      resendFailed;
    rewrite ?Hwj in *;
    try (now left); try json_fault.
  match goal with H : validate _ _ = Some _ |- _ =>
    destruct (validate_cases _ _ _ H) as [-> | [-> | ->]] end;
    json_fault.
Qed.

Lemma json_path_stable_codes_witness :
  response (Sample.mkCtx Sample.jsonHeaders Sample.env0 Sample.lowReviewForm)
           Sample.netAllOk = successResponse \/
  jsonFault (response (Sample.mkCtx Sample.jsonHeaders Sample.env0
                         Sample.lowReviewForm) Sample.netAllOk).
Proof.
  apply (json_path_stable_codes
           (Sample.mkCtx Sample.jsonHeaders Sample.env0 Sample.lowReviewForm)
           Sample.netAllOk).
  reflexivity.
Defined.

Lemma html_path_is_generic_witness :
  genericResponse
    (response (Some (mkContext
                       (Some (mkRequest Sample.browserHeaders
                                (Some Sample.lowReviewForm)))
                       (Some Sample.env0))) Sample.netAllOk).
Proof.
  apply (html_path_is_generic
           (mkContext (Some (mkRequest Sample.browserHeaders
                               (Some Sample.lowReviewForm)))
                      (Some Sample.env0))
           Sample.env0 Sample.netAllOk); reflexivity.
Defined.

(* ------------------------------------------------------------------ *)
(** ** Further properties: the helpers *)

Lemma truthy_Some (o : option string) :
  Js.truthy o = true -> exists m, o = Some m /\ m <> "".
Proof.
  destruct o as [[|c s]|]; cbn; try discriminate.
  intros _. eexists. split; [reflexivity | discriminate].
Qed.

Lemma or_None_cases (o : option string) (m : string) :
  Js.or o None = Some m -> o = Some m /\ m <> "".
Proof.
  unfold Js.or. destruct (Js.truthy o) eqn:E; [|discriminate].
  intros ->. destruct (truthy_Some _ E) as (m' & Hm & Hne).
  injection Hm as <-. now split.
Qed.

Lemma or_cases (a b : option string) : Js.or a b = a \/ Js.or a b = b.
Proof. unfold Js.or. destruct (Js.truthy a); auto. Qed.

(** X16.  A mailbox returned by [resolveToEmail] is never the empty
    string, and it is the value of one of the slots the category may
    use: one of its overrides or the default. *)
Theorem resolved_mailbox_is_configured (t : string) (e : Env) (m : string) :
  resolveToEmail t e = Some m ->
  m <> "" /\ In (Some m) (overrideSlots t e ++ [TO_DEFAULT e])%list.
Proof.
  unfold resolveToEmail, overrideSlots. cbv zeta. rewrite strOr_empty.
  destruct (String.eqb (toLowerCase t) "early_offer");
    [|destruct (String.eqb (toLowerCase t) "fitting");
      [|destruct (String.eqb (toLowerCase t) "events");
        [|destruct (String.eqb (toLowerCase t) "reviews")]]];
    intros H; apply or_None_cases in H as [H Hne]; (split; [exact Hne|]);
    cbn [app In];
    repeat match type of H with
      | Js.or ?a ?b = _ =>
          destruct (or_cases a b) as [E|E]; rewrite E in H; clear E
      end;
    rewrite H; tauto.
Qed.

Lemma resolved_mailbox_is_configured_witness :
  "owner@verosboutiqueky.com" <> "" /\
  In (Some "owner@verosboutiqueky.com")
     (overrideSlots "fitting" Sample.env0 ++ [TO_DEFAULT Sample.env0])%list.
Proof.
  apply (resolved_mailbox_is_configured "fitting" Sample.env0).
  reflexivity.
Defined.

Lemma trimEnd_empty (s : string) :
  trimEnd s = "" -> allWhiteSpace s = true.
Proof.
  induction s as [|c r IH]; [reflexivity|]. cbn [trimEnd allWhiteSpace].
  destruct (isWhiteSpace c); cbn [andb]; [|discriminate].
  destruct (trimEnd r) eqn:E; [intros _; now apply IH | discriminate].
Qed.

Lemma trimStart_nonblank (s : string) :
  allWhiteSpace s = false -> allWhiteSpace (trimStart s) = false.
Proof.
  induction s as [|c r IH]; [discriminate|]. cbn [trimStart allWhiteSpace].
  destruct (isWhiteSpace c) eqn:E; cbn [andb]; [exact IH|].
  intros _. cbn [allWhiteSpace]. now rewrite E.
Qed.

Lemma trim_empty_iff (s : string) :
  trim s = "" <-> allWhiteSpace s = true.
Proof.
  split.
  - intros H. destruct (allWhiteSpace s) eqn:E; [reflexivity|].
    apply trimEnd_empty in H. now rewrite (trimStart_nonblank _ E) in H.
  - intros H. unfold trim. now rewrite (trimStart_allWhiteSpace _ H).
Qed.

(** X17.  A form field is read as the empty string exactly when it is
    absent or holds nothing but whitespace; so an email or a challenge
    token made of spaces counts as missing. *)
Theorem blank_field_reads_empty (form : FormData) (k : string) :
  field form k = "" <->
  FormData_get form k = None \/
  exists v, FormData_get form k = Some v /\ allWhiteSpace v = true.
Proof.
  unfold field. rewrite trim_empty_iff.
  destruct (FormData_get form k) as [v|]; cbn [Js.orStr].
  - destruct v as [|c r]; cbn [isEmpty].
    + split; [intros _; right; now exists "" | reflexivity].
    + split.
      * intros H. right. now exists (String c r).
      * intros [H|(v & Hv & Hw)]; [discriminate|]. now injection Hv as <-.
  - split; [now left | reflexivity].
Qed.

Lemma blank_field_reads_empty_witness :
  field [("formType", "fitting"); ("email", "   ")] "email" = "".
Proof.
  apply (proj2 (blank_field_reads_empty
                  [("formType", "fitting"); ("email", "   ")] "email")).
  right. exists "   ". split; reflexivity.
Defined.

(** X18.  [sendWithResendSafe] makes exactly one call, to the single
    addressee given, and never fails otherwise: it reports [ok] exactly
    when the provider answers with a 2xx status, a failure always
    carries details, and the compliance headers are attached exactly
    to transactional messages. *)
Theorem sendWithResendSafe_contract
    (apiKey fromEmail : string) (fromName : option string)
    (toAddr subj txt : string) (tr : bool) (net : Network) (log : Log) :
  let c := emailCall apiKey fromEmail fromName toAddr subj txt tr in
  let res := sendWithResendSafe apiKey fromEmail fromName
               toAddr subj txt tr net log in
  snd res = (log ++ [(c, net log c)])%list /\
  addressees c = [toAddr] /\
  (ok (fst res) = true <->
   exists resp, net log c = FetchResponse resp /\
                200 <= respStatus resp <= 299) /\
  (ok (fst res) = false -> details (fst res) <> None) /\
  (compliance c <> None <-> tr = true).
Proof.
  cbv zeta. rewrite sendWithResendSafe_run. cbv zeta. cbn [fst snd].
  split; [reflexivity|]. split; [reflexivity|].
  rewrite ok_sendOutcome. split; [|split].
  - unfold fetchOk, respOk.
    destruct (net log _) as [m|resp].
    + split; [discriminate | intros (r & H & _); discriminate].
    + rewrite andb_true_iff, !Z.leb_le. split.
      * intros H. now exists resp.
      * intros (r & H & Hr). now injection H as <-.
  - unfold sendOutcome. destruct (net log _) as [m|resp]; cbn.
    + discriminate.
    + destruct (respOk resp); cbn; discriminate.
  - destruct tr; cbn; split; congruence.
Qed.

Lemma sendWithResendSafe_contract_witness :
  details (fst (sendWithResendSafe "re_key" "noreply@verosboutiqueky.com"
                  None "a@x.com" "Hello" "Body" true
                  Sample.netAutoReplyFails [])) <> None.
Proof.
  pose proof (sendWithResendSafe_contract "re_key"
                "noreply@verosboutiqueky.com" None "a@x.com" "Hello" "Body"
                true Sample.netAutoReplyFails []) as (_ & _ & _ & H & _).
  apply H. reflexivity.
Defined.

(** X19.  [verifyTurnstileSafe] makes exactly one call, with the secret
    and the token as given; the caller's address is sent only when it
    is known and non-empty; a rejection always carries details and an
    acceptance carries none. *)
Theorem verifyTurnstileSafe_contract
    (token secretKey : string) (ip : option string)
    (net : Network) (log : Log) :
  let res := verifyTurnstileSafe token secretKey ip net log in
  exists rip,
    snd res = (log ++ [(CallVerify secretKey token rip,
                        net log (CallVerify secretKey token rip))])%list /\
    (rip = None \/ exists a, rip = Some a /\ a <> "" /\ ip = Some a) /\
    (ok (fst res) = false <-> details (fst res) <> None).
Proof.
  cbv zeta. rewrite verifyTurnstileSafe_run. cbv zeta. cbn [fst snd].
  eexists. split; [reflexivity|]. split.
  - destruct (Js.truthy ip) eqn:E; [|now left].
    right. destruct (truthy_Some _ E) as (a & -> & Ha). now exists a.
  - unfold verifyOutcome.
    destruct (net log _) as [m|resp]; cbn.
    + split; [discriminate | reflexivity].
    + destruct (respOk resp); cbn;
        [|split; [discriminate | reflexivity]].
      destruct (negb _ || negb _); cbn; split; congruence.
Qed.

Lemma verifyTurnstileSafe_contract_witness :
  details (fst (verifyTurnstileSafe "tok" "secret" (Some "")
                  Sample.netVerifyRejects [])) <> None.
Proof.
  destruct (verifyTurnstileSafe_contract "tok" "secret" (Some "")
              Sample.netVerifyRejects []) as (rip & _ & _ & H).
  apply (proj1 H). reflexivity.
Defined.










(* ------------------------------------------------------------------ *)
(** ** Further properties: the Astro route and its lead object *)

Section LeadFacts.

Import AstroLead.

Lemma own_setOwn_same (lead : Lead) (k : string) (v : LeadValue) :
  own (setOwn lead k v) k = Some v.
Proof.
  induction lead as [|[k' v'] rest IH]; cbn [setOwn own].
  - now rewrite String.eqb_refl.
  - destruct (String.eqb k' k) eqn:E; cbn [own].
    + now rewrite String.eqb_refl.
    + now rewrite E.
Qed.

Lemma own_setOwn_other (lead : Lead) (k k' : string) (v : LeadValue) :
  k <> k' -> own (setOwn lead k v) k' = own lead k'.
Proof.
  intros Hne. apply String.eqb_neq in Hne.
  induction lead as [|[k0 v0] rest IH]; cbn [setOwn own].
  - now rewrite Hne.
  - destruct (String.eqb k0 k) eqn:E; cbn [own].
    + apply String.eqb_eq in E. subst k0. now rewrite Hne.
    + now rewrite IH.
Qed.

Lemma own_pushValue_other (lead : Lead) (p k value : string) :
  p <> k -> own (pushValue lead p value) k = own lead k.
Proof.
  intros Hne. unfold pushValue. cbv zeta.
  destruct (falsy (read lead p)).
  - destruct (read (setOwn lead p (LArr [])) p) as [|[s|items]|];
      rewrite ?own_setOwn_other by assumption; reflexivity.
  - destruct (read lead p) as [|[s|items]|];
      rewrite ?own_setOwn_other by assumption; reflexivity.
Qed.

Lemma length_brackets (p : string) :
  String.length (p ++ "[]") = S (S (String.length p)).
Proof. induction p as [|c r IH]; [reflexivity|]. cbn. now rewrite IH. Qed.

Lemma substring_prefix (p s : string) :
  substring 0 (String.length p) (p ++ s) = p.
Proof.
  induction p as [|c r IH]; cbn.
  - destruct s; reflexivity.
  - now rewrite IH.
Qed.

Lemma sliceEnd_brackets (p : string) : sliceEnd (p ++ "[]") 2 = p.
Proof.
  unfold sliceEnd. rewrite length_brackets. cbn [Nat.sub].
  rewrite Nat.sub_0_r. apply substring_prefix.
Qed.

Lemma endsWith_brackets (p : string) : endsWith "[]" (p ++ "[]") = true.
Proof.
  induction p as [|c r IH]; [reflexivity|].
  cbn [append endsWith]. rewrite IH. apply orb_true_r.
Qed.

Lemma endsWith_split (key : string) :
  endsWith "[]" key = true -> key = sliceEnd key 2 ++ "[]".
Proof.
  assert (H : endsWith "[]" key = true -> exists p, key = p ++ "[]").
  { induction key as [|c r IH]; [discriminate|].
    cbn [endsWith]. intros H. apply orb_prop in H as [H|H].
    - apply String.eqb_eq in H. exists "". now rewrite H.
    - destruct (IH H) as (p & ->). now exists (String c p). }
  intros Hk. destruct (H Hk) as (p & ->). now rewrite sliceEnd_brackets.
Qed.

Lemma brackets_inj (p q : string) : p ++ "[]" = q ++ "[]" -> p = q.
Proof.
  intros H. apply (f_equal (fun s => sliceEnd s 2)) in H.
  now rewrite !sliceEnd_brackets in H.
Qed.

(** An array key is never one of the two skipped keys. *)
Lemma brackets_not_skipped (k : string) :
  String.eqb (k ++ "[]") "cf-turnstile-response"
  || String.eqb (k ++ "[]") "formType" = false.
Proof.
  destruct (String.eqb_spec (k ++ "[]") "cf-turnstile-response") as [E|_].
  - pose proof (endsWith_brackets k) as H. rewrite E in H. discriminate.
  - destruct (String.eqb_spec (k ++ "[]") "formType") as [E|_];
      [|reflexivity].
    pose proof (endsWith_brackets k) as H. rewrite E in H. discriminate.
Qed.

(** One entry that does not assign [k] leaves [lead[k]] as it is. *)
Lemma addEntry_other (lead : Lead) (key value k : string) :
  key <> k -> key <> k ++ "[]" ->
  own (addEntry lead (key, value)) k = own lead k.
Proof.
  intros Hk Hkb. unfold addEntry.
  destruct (_ || _); [reflexivity|].
  destruct (endsWith "[]" key) eqn:E.
  - apply own_pushValue_other. intros <-.
    apply Hkb. now apply endsWith_split.
  - destruct (String.eqb key "__proto__"); [reflexivity|].
    now apply own_setOwn_other.
Qed.

Lemma fold_untouched (k : string) (entries : FormData) (lead : Lead) :
  untouched k entries = true ->
  own (fold_left addEntry entries lead) k = own lead k.
Proof.
  unfold untouched. revert lead.
  induction entries as [|[key value] rest IH]; intros lead H;
    [reflexivity|].
  cbn [existsb fst] in H. rewrite negb_orb in H.
  apply andb_prop in H as [Hhead Hrest].
  apply negb_true_iff, orb_false_elim in Hhead as [H1 H2].
  apply String.eqb_neq in H1, H2.
  cbn [fold_left]. rewrite (IH _ Hrest). now apply addEntry_other.
Qed.

Lemma fold_left_app_entries (pre post : FormData) (lead : Lead) :
  fold_left addEntry (pre ++ post)%list lead
  = fold_left addEntry post (fold_left addEntry pre lead).
Proof. apply fold_left_app. Qed.

(** X21.  A scalar field keeps the value of its last assignment: the
    entry [(k, v)] decides [lead[k]] when no later entry names [k] or
    [k[]], for every key but the two skipped keys, array keys and
    [__proto__]. *)
Theorem lead_scalar_last_wins
    (formType : option string) (now : string)
    (pre post : FormData) (k v : string) :
  k <> "cf-turnstile-response" -> k <> "formType" -> k <> "__proto__" ->
  endsWith "[]" k = false ->
  untouched k post = true ->
  own (buildLead formType now (pre ++ (k, v) :: post)%list) k
  = Some (LStr v).
Proof.
  intros H1 H2 H3 H4 Hpost. unfold buildLead.
  rewrite fold_left_app_entries. cbn [fold_left].
  rewrite (fold_untouched _ _ _ Hpost). unfold addEntry.
  apply String.eqb_neq in H1, H2, H3. rewrite H1, H2, H3, H4.
  cbn [orb]. apply own_setOwn_same.
Qed.

Lemma lead_scalar_last_wins_witness :
  own (buildLead (Some "fitting") "2026-03-01T10:00:00.000Z"
         ([("email", "first@x.com")]
          ++ ("email", "last@x.com") :: [("phone", "555")])%list) "email"
  = Some (LStr "last@x.com").
Proof.
  apply (lead_scalar_last_wins (Some "fitting") "2026-03-01T10:00:00.000Z"
           [("email", "first@x.com")] [("phone", "555")]
           "email" "last@x.com"); try discriminate; reflexivity.
Defined.

(** X22.  The lead always records the category: [lead.formType] is the
    submitted [formType], or "unknown" when it is absent or empty, and
    no entry of the form can change it. *)
Theorem lead_formType_kept
    (formType : option string) (now : string) (entries : FormData) :
  own (buildLead formType now entries) "formType"
  = Some (LStr (Js.orStr formType "unknown")).
Proof.
  unfold buildLead.
  assert (Hne : isEmpty (Js.orStr formType "unknown") = false).
  { destruct formType as [[|c s]|]; reflexivity. }
  set (t := Js.orStr formType "unknown") in *.
  assert (Hinit : own [("formType", LStr t); ("timestamp", LStr now)]
                      "formType" = Some (LStr t)) by reflexivity.
  revert Hinit.
  generalize [("formType", LStr t); ("timestamp", LStr now)].
  induction entries as [|[key value] rest IH]; intros lead Hlead;
    [exact Hlead|].
  cbn [fold_left]. apply IH. unfold addEntry.
  destruct (String.eqb key "cf-turnstile-response"); [exact Hlead|].
  destruct (String.eqb_spec key "formType") as [->|Hk]; [exact Hlead|].
  cbn [orb].
  destruct (endsWith "[]" key).
  - destruct (String.eqb_spec (sliceEnd key 2) "formType") as [->|Hp].
    + unfold pushValue, read. rewrite Hlead. cbn [falsy].
      rewrite Hne, Hlead. exact Hlead.
    + now rewrite own_pushValue_other.
  - destruct (String.eqb key "__proto__"); [exact Hlead|].
    now rewrite own_setOwn_other.
Qed.

Lemma fold_array (k : string) (entries : FormData) :
  inherited k = false ->
  (forall kv, In kv entries -> fst kv = k ->
              k = "cf-turnstile-response" \/ k = "formType") ->
  forall (lead : Lead) (xs : list string),
    own lead k = arrayProp xs ->
    own (fold_left addEntry entries lead) k
    = arrayProp (xs ++ arrayValues k entries)%list.
Proof.
  intros Hinh. induction entries as [|[key value] rest IH];
    intros Hscalar lead xs Hlead.
  - cbn. now rewrite app_nil_r.
  - cbn [fold_left]. unfold arrayValues. cbn [filter fst].
    assert (Hrest : forall kv, In kv rest -> fst kv = k ->
                      k = "cf-turnstile-response" \/ k = "formType").
    { intros kv Hin. apply Hscalar. now right. }
    destruct (String.eqb_spec key (k ++ "[]")) as [->|Hkb].
    + cbn [map snd]. fold (arrayValues k rest).
      replace (xs ++ value :: arrayValues k rest)%list
        with ((xs ++ [value]) ++ arrayValues k rest)%list
        by now rewrite <- app_assoc.
      apply (IH Hrest). unfold addEntry.
      rewrite brackets_not_skipped, endsWith_brackets, sliceEnd_brackets.
      unfold pushValue, read. rewrite Hlead.
      destruct xs as [|x xs']; cbn [arrayProp].
      * rewrite Hinh. cbn [falsy]. rewrite own_setOwn_same.
        now rewrite own_setOwn_same.
      * cbn [falsy]. rewrite Hlead. cbn [arrayProp].
        rewrite own_setOwn_same. reflexivity.
    + fold (arrayValues k rest). apply (IH Hrest).
      destruct (String.eqb_spec key k) as [->|Hk].
      * unfold addEntry.
        destruct (Hscalar (k, value) (or_introl eq_refl) eq_refl)
          as [-> | ->]; exact Hlead.
      * now rewrite addEntry_other.
Qed.

(** X23.  The values submitted under a multi-value key [k[]] are
    collected into [lead[k]] as an array, in the order of the body, when
    [k] is not assigned as a scalar, is not a property of
    [Object.prototype] and is neither [formType] nor [timestamp]; when
    there is no such value, [lead] has no property [k]. *)
Theorem lead_array_collects
    (formType : option string) (now : string)
    (entries : FormData) (k : string) :
  inherited k = false ->
  k <> "formType" -> k <> "timestamp" ->
  hasKey entries k = false ->
  own (buildLead formType now entries) k
  = arrayProp (arrayValues k entries).
Proof.
  intros Hinh H1 H2 Hscalar. unfold buildLead.
  apply (fold_array k entries Hinh) with (xs := []).
  - intros kv Hin Hk. exfalso.
    assert (hasKey entries k = true); [|congruence].
    apply existsb_exists. exists kv. split; [exact Hin|].
    now apply String.eqb_eq.
  - cbn [own arrayProp]. apply not_eq_sym in H1, H2.
    apply String.eqb_neq in H1, H2. now rewrite H1, H2.
Qed.

Lemma lead_array_collects_witness :
  own (buildLead (Some "fitting") "2026-03-01T10:00:00.000Z"
         [("dates[]", "May 1"); ("email", "a@x.com"); ("dates[]", "May 8")])
      "dates"
  = arrayProp (arrayValues "dates"
                 [("dates[]", "May 1"); ("email", "a@x.com");
                  ("dates[]", "May 8")]).
Proof.
  apply (lead_array_collects (Some "fitting") "2026-03-01T10:00:00.000Z"
           [("dates[]", "May 1"); ("email", "a@x.com"); ("dates[]", "May 8")]
           "dates"); try discriminate; reflexivity.
Defined.

(** X24.  The challenge token is not copied into the lead: the entries
    named [cf-turnstile-response] are skipped, so the lead has that
    property only if the form has values under the array key
    [cf-turnstile-response[]]. *)
Theorem lead_omits_token
    (formType : option string) (now : string) (entries : FormData) :
  own (buildLead formType now entries) "cf-turnstile-response"
  = arrayProp (arrayValues "cf-turnstile-response" entries).
Proof.
  unfold buildLead.
  apply (fold_array "cf-turnstile-response" entries eq_refl) with (xs := []).
  - intros kv _ _. now left.
  - reflexivity.
Qed.

End LeadFacts.

(** X25.  The route answers 200 exactly when the request is a POST whose
    form decodes and carries a non-empty challenge token that the
    provider answers with a JSON body whose [success] is truthy; the
    provider's HTTP status plays no part.  The lead is logged exactly
    on that answer, and the provider is called at most once, never
    without a token. *)
Theorem astro_post_outcome
    (secret : option string) (now : string)
    (req : AstroLead.ARequest) (net : AstroLead.ANetwork) :
  let res := AstroLead.POST secret now req net in
  (status (AstroLead.aResponse res) = 200 <->
   AstroLead.reqMethod req = "POST" /\
   exists form token,
     AstroLead.reqForm req = Some form /\
     FormData_get form "cf-turnstile-response" = Some token /\
     token <> "" /\
     AstroLead.accepted (net (AstroLead.VerifyJson secret token)) = true) /\
  (AstroLead.aLogged res <> None <->
   status (AstroLead.aResponse res) = 200) /\
  (AstroLead.aCalls res = [] \/
   exists token, token <> "" /\
                 AstroLead.aCalls res = [AstroLead.VerifyJson secret token]).
Proof.
  cbv zeta. unfold AstroLead.POST.
  destruct (String.eqb_spec (AstroLead.reqMethod req) "POST") as [Hm|Hm];
    cbn [negb].
  2:{ split; [|split; [|now left]]; cbn;
        split; try discriminate; try tauto. }
  destruct (AstroLead.reqForm req) as [form|].
  2:{ split; [|split; [|now left]]; cbn; split; try discriminate;
        try congruence.
      intros (_ & f & t & H & _). discriminate. }
  cbv zeta.
  destruct (FormData_get form "cf-turnstile-response") as [token|] eqn:Ht.
  2:{ cbn. split; [|split; [|now left]]; split; try discriminate;
        try congruence.
      intros (_ & f & t & H1 & H2 & _). congruence. }
  destruct token as [|c0 t0].
  { cbn. split; [|split; [|now left]]; split; try discriminate;
      try congruence.
    intros (_ & f & t & H1 & H2 & H3 & _).
    injection H1 as <-. rewrite Ht in H2. injection H2 as <-.
    exfalso. now apply H3. }
  set (token := String c0 t0) in *.
  assert (Hne : token <> "") by discriminate.
  cbn [Js.truthy isEmpty negb asString].
  assert (Hiff : forall (b : bool) (P : Prop),
            (P <-> AstroLead.accepted
                     (net (AstroLead.VerifyJson secret token)) = true) ->
            (P <->
             AstroLead.reqMethod req = "POST" /\
             exists form' token',
               Some form = Some form' /\
               FormData_get form' "cf-turnstile-response" = Some token' /\
               token' <> "" /\
               AstroLead.accepted
                 (net (AstroLead.VerifyJson secret token')) = true)).
  { intros _ P HP. rewrite HP. split.
    - intros Ha. split; [exact Hm|]. now exists form, token.
    - intros (_ & f & t & H1 & H2 & _ & Ha).
      injection H1 as <-. rewrite Ht in H2. now injection H2 as <-. }
  assert (Hcalls : exists t, t <> "" /\
            [AstroLead.VerifyJson secret token]
            = [AstroLead.VerifyJson secret t]) by now exists token.
  unfold AstroLead.accepted in Hiff.
  destruct (net (AstroLead.VerifyJson secret token)) as [m|resp].
  { split; [apply (Hiff true)|split; [|now right]]; cbn;
      split; try discriminate; congruence. }
  destruct (respJson resp) as [v|].
  2:{ split; [apply (Hiff true)|split; [|now right]]; cbn;
        split; try discriminate; congruence. }
  assert (Hnull : v = JNull ->
                  AstroLead.falsyProp (Js.prop v "success") = true)
    by now intros ->.
  destruct (AstroLead.falsyProp (Js.prop v "success")) eqn:Hf.
  - destruct v; cbn [AstroLead.aResponse AstroLead.aLogged AstroLead.aCalls];
      match goal with
      | |- (status ?r = 200 <-> _) /\ _ =>
          split; [apply (Hiff true)|split; [|now right]]
      end;
      cbn; split; try discriminate; congruence.
  - destruct v; try (specialize (Hnull eq_refl); discriminate);
      cbn [AstroLead.aResponse AstroLead.aLogged AstroLead.aCalls];
      (split; [apply (Hiff true)|split; [|now right]]);
      cbn; split; try discriminate; try congruence; reflexivity.
Qed.

Lemma astro_post_outcome_witness :
  status (AstroLead.aResponse
            (AstroLead.POST (Some "secret") "2026-03-01T10:00:00.000Z"
               (AstroLead.mkARequest "POST"
                  (Some [("cf-turnstile-response", "tok");
                         ("formType", "fitting")]))
               (fun _ => FetchResponse
                           (mkHttpResponse 500 None
                              (Some (JObj [("success", JNum 1)]))))))
  = 200.
Proof.
  apply (proj1 (astro_post_outcome (Some "secret")
                  "2026-03-01T10:00:00.000Z"
                  (AstroLead.mkARequest "POST"
                     (Some [("cf-turnstile-response", "tok");
                            ("formType", "fitting")]))
                  (fun _ => FetchResponse
                              (mkHttpResponse 500 None
                                 (Some (JObj [("success", JNum 1)])))))).
  split; [reflexivity|].
  exists [("cf-turnstile-response", "tok"); ("formType", "fitting")], "tok".
  repeat split. discriminate.
Defined.

(* ------------------------------------------------------------------ *)
(** ** Further properties: the earlier variant of the handler *)

Lemma legacy_ok_verifyOutcome (resp : HttpResponse) :
  ok (Legacy.verifyOutcome resp) = Legacy.accepts (FetchResponse resp).
Proof.
  unfold Legacy.verifyOutcome, Legacy.accepts.
  destruct (respJson resp) as [[| b | n | s | items | props]|]; cbn;
    try reflexivity.
  - destruct b; reflexivity.
  - destruct (n =? 0); reflexivity.
  - destruct (isEmpty s); reflexivity.
  - destruct (Js.lookup props "success") as [[| [] | | | |]|]; reflexivity.
Qed.

Lemma legacy_ok_sendOutcome (resp : HttpResponse) :
  ok (Legacy.sendOutcome resp) = respOk resp.
Proof. unfold Legacy.sendOutcome. destruct (respOk resp); reflexivity. Qed.

(** X26.  The current verifier accepts an answer exactly when the
    earlier one accepts it and the HTTP status is successful: the check
    of the status (lead.ts 408-410) is what the current variant adds. *)
Theorem verification_adds_status_check (resp : HttpResponse) :
  ok (verifyOutcome (FetchResponse resp))
  = respOk resp && ok (Legacy.verifyOutcome resp).
Proof.
  rewrite ok_verifyOutcome, legacy_ok_verifyOutcome.
  unfold verified, Legacy.accepts. reflexivity.
Qed.

(** lead.ts 482-559 as one equation. *)
Lemma legacy_run (req : Legacy.Request) (e : Legacy.Env) (net : Network) :
  Legacy.onRequestPost req e net [] =
  match Legacy.decoded req with
  | inl m => (Legacy.serverError m, [])
  | inr form =>
      let f := Legacy.extractFields form in
      let h := Legacy.reqHeaders req in
      match Legacy.validate f with
      | Some r => (r, [])
      | None =>
          if Js.truthy (Legacy.TURNSTILE_SECRET_KEY e) then
            let cv := Legacy.verifyCall e h f in
            match net [] cv with
            | FetchThrows m =>
                (Legacy.serverError m, [(cv, FetchThrows m)])
            | FetchResponse resp =>
                let l1 := [(cv, FetchResponse resp)] in
                if Legacy.accepts (FetchResponse resp) then
                  if Js.truthy (Legacy.resolveToEmail (Legacy.formType f) e)
                  then
                    if Js.truthy (Legacy.RESEND_API_KEY e) then
                      if Js.truthy (Legacy.RESEND_FROM_EMAIL e) then
                        let cs := Legacy.primaryCall e h f in
                        match net l1 cs with
                        | FetchThrows m =>
                            (Legacy.serverError m,
                             (l1 ++ [(cs, FetchThrows m)])%list)
                        | FetchResponse r2 =>
                            if respOk r2 then
                              (Legacy.json (obj [("success", JBool true)]) 200,
                               (l1 ++ [(cs, FetchResponse r2)])%list)
                            else
                              (Legacy.failure "Email send failed"
                                 (details (Legacy.sendOutcome r2)) 502,
                               (l1 ++ [(cs, FetchResponse r2)])%list)
                        end
                      else
                        (Legacy.failure "Email send failed"
                           (Some (JStr "RESEND_FROM_EMAIL missing")) 502, l1)
                    else
                      (Legacy.failure "Email send failed"
                         (Some (JStr "RESEND_API_KEY missing")) 502, l1)
                  else
                    (Legacy.failure
                       ("Unknown formType: " ++ Legacy.formType f) None 400,
                     l1)
                else
                  (Legacy.failure "Turnstile verification failed"
                     (details (Legacy.verifyOutcome resp)) 403, l1)
            end
          else
            (Legacy.failure "Turnstile verification failed"
               (Some (JStr "TURNSTILE_SECRET_KEY missing")) 403, [])
      end
  end.
Proof.
  unfold Legacy.onRequestPost. cbv zeta.
  destruct (Legacy.decoded req) as [m|form]; [reflexivity|].
  destruct (Legacy.validate _); [reflexivity|].
  unfold Legacy.submit, Legacy.verifyTurnstile, Legacy.bindE, Legacy.retE,
    Legacy.fetchE. cbv zeta.
  destruct (Js.truthy (Legacy.TURNSTILE_SECRET_KEY e)); cbn [negb];
    [|reflexivity].
  fold (Legacy.verifyCall e (Legacy.reqHeaders req)
          (Legacy.extractFields form)).
  destruct (net [] _) as [m|resp]; [reflexivity|].
  rewrite legacy_ok_verifyOutcome.
  destruct (Legacy.accepts _); cbn [negb]; [|reflexivity].
  destruct (Js.truthy (Legacy.resolveToEmail _ e)); cbn [negb];
    [|reflexivity].
  unfold Legacy.sendWithResend, Legacy.bindE, Legacy.retE, Legacy.fetchE.
  destruct (Js.truthy (Legacy.RESEND_API_KEY e)); cbn [negb];
    [|reflexivity].
  destruct (Js.truthy (Legacy.RESEND_FROM_EMAIL e)); cbn [negb];
    [|reflexivity].
  fold (Legacy.primaryCall e (Legacy.reqHeaders req)
          (Legacy.extractFields form)).
  cbn [app].
  destruct (net _ _) as [m|r2]; [reflexivity|].
  rewrite legacy_ok_sendOutcome.
  destruct (respOk r2); reflexivity.
Qed.

Ltac legacy_cases :=
  rewrite !legacy_run; cbv zeta;
  repeat match goal with
    | |- context [match ?x with _ => _ end] => destruct x eqn:?
    end.

Lemma legacy_validate_cases (f : Legacy.Fields) (r : Response) :
  Legacy.validate f = Some r ->
  r = Legacy.failure "Missing formType" None 400 \/
  r = Legacy.failure "Missing email" None 400 \/
  r = Legacy.failure "Missing Turnstile token" None 400.
Proof.
  unfold Legacy.validate.
  repeat match goal with |- context [if ?b then _ else _] => destruct b end;
    intros H; try discriminate H; injection H as <-; tauto.
Qed.

(** X27.  In the earlier variant no email is dispatched ungated, and no
    category is exempt: whenever the email provider is called, the
    first outbound call was a verification whose answer has [success]
    equal to [true]. *)
Theorem legacy_dispatch_requires_verification
    (req : Legacy.Request) (e : Legacy.Env) (net : Network) :
  anySend (snd (Legacy.onRequestPost req e net [])) = true ->
  Legacy.gatePassed (snd (Legacy.onRequestPost req e net [])) = true.
Proof.
  legacy_cases; cbn; try discriminate; intros _; assumption.
Qed.

Lemma legacy_dispatch_requires_verification_witness :
  Legacy.gatePassed
    (snd (Legacy.onRequestPost
            (Legacy.mkRequest Sample.browserHeaders
               (inr Sample.earlyOfferForm))
            (Legacy.mkEnv (Some "secret") (Some "re_key")
               (Some "noreply@verosboutiqueky.com") None None None None
               (Some "owner@verosboutiqueky.com"))
            Sample.netAllOk [])) = true.
Proof.
  apply (legacy_dispatch_requires_verification
           (Legacy.mkRequest Sample.browserHeaders
              (inr Sample.earlyOfferForm))
           (Legacy.mkEnv (Some "secret") (Some "re_key")
              (Some "noreply@verosboutiqueky.com") None None None None
              (Some "owner@verosboutiqueky.com"))
           Sample.netAllOk).
  reflexivity.
Defined.

(** X28.  The earlier variant asks for category, email and challenge
    token whatever the category: a submission lacking one of them, a
    five-star review included, is refused with status 400 before any
    outbound call. *)
Theorem legacy_requires_email_and_token
    (req : Legacy.Request) (e : Legacy.Env) (form : FormData)
    (net : Network) :
  Legacy.decoded req = inr form ->
  Legacy.formType (Legacy.extractFields form) = "" \/
  Legacy.email (Legacy.extractFields form) = "" \/
  Legacy.turnstileToken (Legacy.extractFields form) = "" ->
  status (fst (Legacy.onRequestPost req e net [])) = 400 /\
  snd (Legacy.onRequestPost req e net []) = [].
Proof.
  intros Hform Hmiss. rewrite legacy_run, Hform. cbv zeta.
  destruct (Legacy.validate _) as [r|] eqn:Hv.
  - split; [|reflexivity]. cbn [fst].
    destruct (legacy_validate_cases _ _ Hv) as [-> | [-> | ->]];
      reflexivity.
  - exfalso. revert Hv. unfold Legacy.validate.
    destruct Hmiss as [-> | [-> | ->]]; cbn [isEmpty];
      repeat match goal with
        | |- context [if ?b then _ else _] => destruct b
        end; discriminate.
Qed.

Lemma legacy_requires_email_and_token_witness :
  status (fst (Legacy.onRequestPost
                 (Legacy.mkRequest Sample.browserHeaders
                    (inr Sample.reviewForm))
                 (Legacy.mkEnv (Some "secret") (Some "re_key")
                    (Some "noreply@verosboutiqueky.com") None None None
                    None (Some "owner@verosboutiqueky.com"))
                 Sample.netAllOk [])) = 400 /\
  snd (Legacy.onRequestPost
         (Legacy.mkRequest Sample.browserHeaders (inr Sample.reviewForm))
         (Legacy.mkEnv (Some "secret") (Some "re_key")
            (Some "noreply@verosboutiqueky.com") None None None None
            (Some "owner@verosboutiqueky.com"))
         Sample.netAllOk []) = [].
Proof.
  apply (legacy_requires_email_and_token
           (Legacy.mkRequest Sample.browserHeaders (inr Sample.reviewForm))
           (Legacy.mkEnv (Some "secret") (Some "re_key")
              (Some "noreply@verosboutiqueky.com") None None None None
              (Some "owner@verosboutiqueky.com"))
           Sample.reviewForm Sample.netAllOk eq_refl).
  right. left. reflexivity.
Defined.

(** X29.  Every response of the earlier variant is JSON marked
    [no-store], with one of five statuses; and an exception thrown by
    [fetch] or by the decoding of the form reaches the [catch], which
    answers 500 with the exception's text in [details]. *)
Theorem legacy_responses
    (req : Legacy.Request) (e : Legacy.Env) (net : Network) :
  let r := fst (Legacy.onRequestPost req e net []) in
  let log := snd (Legacy.onRequestPost req e net []) in
  respHeaders r = [("Content-Type", "application/json; charset=utf-8");
                   ("Cache-Control", "no-store")] /\
  In (status r) Legacy.statusCodes /\
  (forall c m, In (c, FetchThrows m) log -> r = Legacy.serverError m) /\
  (forall m, Legacy.decoded req = inl m -> r = Legacy.serverError m).
Proof.
  cbv zeta. legacy_cases; cbn [fst snd app];
    try match goal with
      | H : Legacy.validate _ = Some _ |- _ =>
          destruct (legacy_validate_cases _ _ H) as [-> | [-> | ->]]
      end;
    (split; [reflexivity|]; split; [cbn; tauto|]; split;
     [intros c0 m0 Hin; cbn [In] in Hin;
      repeat (destruct Hin as [Hin|Hin]; [try congruence|]);
      try contradiction
     |intros m0 Hd; congruence]).
Qed.

Lemma legacy_responses_witness :
  fst (Legacy.onRequestPost
         (Legacy.mkRequest Sample.browserHeaders (inl "Failed to parse body"))
         (Legacy.mkEnv (Some "secret") (Some "re_key")
            (Some "noreply@verosboutiqueky.com") None None None None None)
         Sample.netAllOk [])
  = Legacy.serverError "Failed to parse body".
Proof.
  pose proof (legacy_responses
                (Legacy.mkRequest Sample.browserHeaders
                   (inl "Failed to parse body"))
                (Legacy.mkEnv (Some "secret") (Some "re_key")
                   (Some "noreply@verosboutiqueky.com") None None None None
                   None)
                Sample.netAllOk) as (_ & _ & _ & H).
  apply H. reflexivity.
Defined.
